(** * ResourceList.Item: selection, focus, activation and action disclosure

    A shallow embedding of
    [src/components/ResourceList/components/Item/Item.tsx].

    The component is a React function component.  Each render runs the
    function body once: it reads the props and the list context, reads the
    two [useState] cells and the [node] ref, and builds its event handlers
    with [useCallback].  A handler is a JavaScript closure over the
    bindings of the render that created it, and [useCallback (fn, deps)]
    hands back the closure of an earlier render as long as [deps] are
    unchanged.  The embedding therefore keeps, for every handler that has
    free variables, the values that its closure captured together with the
    dependency list under which it was stored. *)

From Stdlib Require Import Bool List String Ascii Arith Lia.
Import ListNotations.
Open Scope string_scope.

Set Implicit Arguments.
Set Warnings "-register-all".

(** ** JavaScript values that reach dependency lists and callback arguments *)

Module JS.

(** Function values are compared by identity.  [noop] is the one function
    imported from [@shopify/javascript-utilities/other]; every other
    function that a caller can pass is an [external] one. *)
Inductive Fn : Type :=
| noop
| external (n : nat).

Definition Fn_eqb (f g : Fn) : bool :=
  match f, g with
  | noop, noop => true
  | external n, external m => Nat.eqb n m
  | _, _ => false
  end.

Inductive Value : Type :=
| undefined
| boolean (b : bool)
| str (s : string)
| func (f : Fn).

(** [Object.is], the comparison React applies to hook dependencies. *)
Definition Object_is (v w : Value) : bool :=
  match v, w with
  | undefined, undefined => true
  | boolean a, boolean b => Bool.eqb a b
  | str a, str b => String.eqb a b
  | func f, func g => Fn_eqb f g
  | _, _ => false
  end.

(** Truthiness of a value, as used by [&&], [||], [!] and [?:]. *)
Definition truthy (v : Value) : bool :=
  match v with
  | undefined => false
  | boolean b => b
  | str s => negb (String.eqb s EmptyString)
  | func _ => true
  end.

Definition of_string (s : option string) : Value :=
  match s with Some s => str s | None => undefined end.

Definition of_fn (f : option Fn) : Value :=
  match f with Some f => func f | None => undefined end.

Definition string_of (v : Value) : string :=
  match v with str s => s | _ => EmptyString end.

(** [String.prototype.toLowerCase] on the ASCII range. *)
Definition lower_ascii (c : ascii) : ascii :=
  let n := nat_of_ascii c in
  if Nat.leb 65 n && Nat.leb n 90 then ascii_of_nat (n + 32) else c.

Fixpoint toLowerCase (s : string) : string :=
  match s with
  | EmptyString => EmptyString
  | String c r => String (lower_ascii c) (toLowerCase r)
  end.

(** [Array.prototype.includes] on an array of strings. *)
Definition includes (l : list string) (x : option string) : bool :=
  match x with
  | Some s => existsb (String.eqb s) l
  | None => false
  end.

End JS.

(** ** The hooks the component uses *)

Module React.

Import JS.

(** [areHookInputsEqual]: dependency lists are compared element-wise with
    [Object.is]. *)
Fixpoint areHookInputsEqual (next prev : list Value) : bool :=
  match next, prev with
  | [], [] => true
  | a :: next', b :: prev' => Object_is a b && areHookInputsEqual next' prev'
  | _, _ => false
  end.

(** A [useCallback] cell: the stored closure and the dependencies it was
    stored under. *)
Record Memo (C : Type) : Type := mkMemo {
  callback : C;
  deps : list Value
}.

(** [useCallback (fn, deps)].  On mount the fresh closure is stored; on an
    update the stored closure is returned unless a dependency changed. *)
Definition useCallback {C : Type} (prev : option (Memo C)) (fn : C)
    (nextDeps : list Value) : Memo C :=
  match prev with
  | None => mkMemo fn nextDeps
  | Some m =>
      if areHookInputsEqual nextDeps (deps m) then m else mkMemo fn nextDeps
  end.

(** [useState (initial)]: the initial value on mount, the stored one after. *)
Definition useState {S : Type} (prev : option S) (initial : S) : S :=
  match prev with
  | None => initial
  | Some s => s
  end.

End React.

(** ** The list item *)

Module Item.

Import JS React.

(** *** Props and context *)

(** Modelled from the spec: [DisableableAction] of [types] is not among
    the sources.  [shortcutActions] is an ordered sequence of disableable
    actions; the component hands them on to [buttonsFrom] and [ActionList]
    and never looks inside one, so an action is a token here. *)
Inductive DisableableAction : Type :=
| action (n : nat).

(** A React node received from the caller ([children], [media]); opaque. *)
Inductive ReactNode : Type :=
| node_token (n : nat).

(** [Props], after the union of [PropsWithUrl] and [PropsWithClick] is
    flattened: every field is read as possibly undefined, which is how the
    function body treats them ([id == null], [url &&], [onClick = noop]). *)
Record Props : Type := {
  children : option ReactNode;
  url : option string;
  media : option ReactNode;
  shortcutActions : option (list DisableableAction);
  ariaControls : option string;
  ariaExpanded : option bool;
  persistActions : option bool;
  accessibilityLabel : option string;
  id : option string;
  onClick : option Fn
}.

(** Modelled from the spec: [SELECT_ALL_ITEMS] and the type of
    [selectedItems] come from [ResourceList/types], which is not among the
    sources.  [selectedItems] is either the selected ids or a sentinel
    meaning that all items are selected. *)
Inductive ResourceListSelectedItems : Type :=
| Items (ids : list string)
| SELECT_ALL_ITEMS.

(** Modelled from the spec: [ResourceListContextType] of
    [ResourceList/context] is not among the sources.  The fields are the
    ones the component destructures; the three flags are booleans as the
    data model of the specification has them. *)
Record ResourceListContextType : Type := {
  selectable : bool;
  selectMode : bool;
  loading : bool;
  onSelectionChange : option Fn;
  selectedItems : option ResourceListSelectedItems
}.

(** *** State, DOM and effects *)

(** The object kept by the second [useState]. *)
Record FocusState : Type := {
  focused : bool;
  focusedInner : bool
}.

(** Both [useState] cells. *)
Record State : Type := {
  actionsMenuVisible : bool;
  focus : FocusState
}.

(** DOM nodes are compared by identity. *)
Definition Node : Type := nat.

(** The DOM queries the handlers make.  [contains n None] is
    [n.contains(null)]. *)
Record Document : Type := {
  contains : Node -> option Node -> bool;
  querySelector : Node -> string -> option Node;
  tagName : Node -> string
}.

Record MouseEvent : Type := {
  target : Node;
  ctrlKey : bool;
  metaKey : bool
}.

Record FocusEvent : Type := {
  blurTarget : Node;
  relatedTarget : option Node
}.

Record KeyboardEvent : Type := {
  key : string
}.

(** What a handler does to the world outside the component state. *)
Inductive Effect : Type :=
| propagation_stopped
| called (f : Fn) (args : list Value)
| window_open (href windowName : string)
| element_click (el : Node).

(** *** Handlers run in a state monad over [State] that logs effects *)

Definition Handler (A : Type) : Type := State -> A * State * list Effect.

Definition ret {A : Type} (a : A) : Handler A := fun s => (a, s, []).

Definition bind {A B : Type} (m : Handler A) (k : A -> Handler B) : Handler B :=
  fun s =>
    let '(a, s1, log1) := m s in
    let '(b, s2, log2) := k a s1 in
    (b, s2, (log1 ++ log2)%list).

Definition emit (e : Effect) : Handler unit := fun s => (tt, s, [e]).

Definition setFocusState (updater : FocusState -> FocusState) : Handler unit :=
  fun s =>
    (tt, {| actionsMenuVisible := actionsMenuVisible s;
            focus := updater (focus s) |}, []).

Definition setActionsMenuVisible (updater : bool -> bool) : Handler unit :=
  fun s =>
    (tt, {| actionsMenuVisible := updater (actionsMenuVisible s);
            focus := focus s |}, []).

Definition when (b : bool) (m : Handler unit) : Handler unit :=
  if b then m else ret tt.

Declare Scope handler_scope.
Delimit Scope handler_scope with handler.
Notation "m ;; k" := (bind m (fun _ => k))
  (at level 61, right associativity) : handler_scope.
Local Open Scope handler_scope.

Definition run {A : Type} (m : Handler A) (s : State) : State * list Effect :=
  let '(_, s', log) := m s in (s', log).

(** *** Closures: what each memoised handler captured *)

(** [handleSelection] reads [id] and [onSelectionChange]. *)
Record SelectionClosure : Type := {
  sel_id : option string;
  sel_onSelectionChange : option Fn
}.

(** [handleLargerSelectionArea] reads [selected] and [handleSelection]. *)
Record LargerSelectionAreaClosure : Type := {
  lsa_selected : Value;
  lsa_handleSelection : SelectionClosure
}.

(** [handleClick] reads [selectMode], [onClick], [url], [id] and
    [handleLargerSelectionArea]. *)
Record ClickClosure : Type := {
  clk_selectMode : bool;
  clk_onClick : Fn;
  clk_url : option string;
  clk_id : option string;
  clk_handleLargerSelectionArea : LargerSelectionAreaClosure
}.

(** [handleKeypress] reads [selectMode] and [onClick]. *)
Record KeypressClosure : Type := {
  key_selectMode : bool;
  key_onClick : Fn
}.

(** [handleBlur] calls [compareEventNode], which reads [onClick]. *)
Record BlurClosure : Type := {
  blur_onClick : Fn
}.

(** *** The function bodies *)

Definition Array_isArray (v : ResourceListSelectedItems) : bool :=
  match v with
  | Items _ => true
  | SELECT_ALL_ITEMS => false
  end.

Definition selectedItems_includes (v : ResourceListSelectedItems)
    (id : option string) : bool :=
  match v with
  | Items ids => includes ids id
  | SELECT_ALL_ITEMS => false
  end.

Definition is_SELECT_ALL_ITEMS (v : ResourceListSelectedItems) : bool :=
  match v with
  | Items _ => false
  | SELECT_ALL_ITEMS => true
  end.

(** [selectedItems && (...)]: an undefined [selectedItems] is the result;
    an array or the sentinel is truthy and the result is the boolean on
    the right. *)
Definition isSelected (id : option string)
    (selectedItems : option ResourceListSelectedItems) : Value :=
  match selectedItems with
  | None => undefined
  | Some v =>
      boolean ((Array_isArray v && selectedItems_includes v id)
               || is_SELECT_ALL_ITEMS v)
  end.

Definition stopPropagation : Handler unit := emit propagation_stopped.

Definition handleAnchorFocus : Handler unit :=
  setFocusState (fun _ => {| focused := true; focusedInner := false |}).

Definition handleFocusedBlur : Handler unit :=
  setFocusState (fun _ => {| focused := true; focusedInner := true |}).

Definition handleFocus : Handler unit :=
  setFocusState (fun f => {| focused := true; focusedInner := focusedInner f |}).

Definition handleMouseDown : Handler unit :=
  setFocusState (fun f => {| focused := focused f; focusedInner := true |}).

Definition compareEventNode (onClick : Fn) (node : option Node) (doc : Document)
    (event : FocusEvent) : bool :=
  if negb (Fn_eqb onClick noop)
  then match node with
       | Some n => Nat.eqb (blurTarget event) n
       | None => false
       end
  else String.eqb (toLowerCase (tagName doc (blurTarget event))) "a".

(** [node.current == null || !node.current.contains (event.relatedTarget)]. *)
Definition focusLeftSubtree (node : option Node) (doc : Document)
    (event : FocusEvent) : bool :=
  match node with
  | None => true
  | Some n => negb (contains doc n (relatedTarget event))
  end.

Definition handleBlur (c : BlurClosure) (node : option Node) (doc : Document)
    (event : FocusEvent) : Handler unit :=
  let isInside := compareEventNode (blur_onClick c) node doc event in
  if focusLeftSubtree node doc event
  then setFocusState
         (fun f => {| focused := false; focusedInner := focusedInner f |})
  else if isInside
  then setFocusState
         (fun f => {| focused := focused f; focusedInner := true |})
  else ret tt.

Definition handleSelection (c : SelectionClosure) (value : bool) : Handler unit :=
  match sel_id c, sel_onSelectionChange c with
  | Some id, Some onSelectionChange =>
      setFocusState (fun _ => {| focused := true; focusedInner := true |}) ;;
      emit (called onSelectionChange [boolean value; str id])
  | _, _ => ret tt
  end.

Definition handleLargerSelectionArea (c : LargerSelectionAreaClosure)
    : Handler unit :=
  stopPropagation ;;
  handleSelection (lsa_handleSelection c) (negb (truthy (lsa_selected c))).

(** [node.current && node.current.querySelector ('a')]. *)
Definition embeddedAnchor (node : option Node) (doc : Document) : option Node :=
  match node with
  | Some n => querySelector doc n "a"
  | None => None
  end.

(** [anchor === event.target]. *)
Definition anchorIsTarget (anchor : option Node) (event : MouseEvent) : bool :=
  match anchor with
  | Some a => Nat.eqb a (target event)
  | None => false
  end.

Definition handleClick (c : ClickClosure) (node : option Node) (doc : Document)
    (event : MouseEvent) : Handler unit :=
  let anchor := embeddedAnchor node doc in
  if clk_selectMode c
  then handleLargerSelectionArea (clk_handleLargerSelectionArea c)
  else if anchorIsTarget anchor event
  then ret tt
  else
    when (negb (Fn_eqb (clk_onClick c) noop))
         (emit (called (clk_onClick c) [of_string (clk_id c)])) ;;
    let url := of_string (clk_url c) in
    if truthy url && (ctrlKey event || metaKey event)
    then emit (window_open (string_of url) "_blank")
    else match anchor with
         | Some a => when (truthy url) (emit (element_click a))
         | None => ret tt
         end.

Definition handleKeypress (c : KeypressClosure) (event : KeyboardEvent)
    : Handler unit :=
  when (String.eqb (key event) "Enter" && negb (key_selectMode c))
       (emit (called (key_onClick c) [])).

Definition handleActionsClick : Handler unit :=
  setActionsMenuVisible negb.

Definition handleCloseRequest : Handler unit :=
  setActionsMenuVisible (fun _ => false).

(** *** Rendered output *)

(** Text that is either literal or looked up through [intl.translate]. *)
Inductive Text : Type :=
| literal (s : string)
| translate (messageKey : string) (replacements : list (string * Text)).

(** The handler attached to an element, with the closure that was current
    in the render that attached it. *)
Inductive Listener : Type :=
| on_stopPropagation
| on_handleAnchorFocus
| on_handleFocusedBlur
| on_handleFocus
| on_handleMouseDown
| on_handleActionsClick
| on_handleCloseRequest
| on_handleBlur (c : BlurClosure)
| on_handleSelection (c : SelectionClosure)
| on_handleLargerSelectionArea (c : LargerSelectionAreaClosure)
| on_handleClick (c : ClickClosure)
| on_handleKeypress (c : KeypressClosure).

(** React elements as JSX builds them.  [buttonsFrom] of [Button] is kept
    as a symbolic child: the array of buttons made from the actions. *)
Inductive VNode : Type :=
| null
| slot (n : ReactNode)
| buttonsFrom (actions : list DisableableAction) (overrides : list (string * Attr))
| jsx (type : string) (attrs : list (string * Attr)) (kids : list VNode)
with Attr : Type :=
| ref_node
| value (v : Value)
| number (sign : bool) (n : nat)
| text (t : Text)
| listener (l : Listener)
| element (e : VNode)
| items (l : list DisableableAction).

(** [classNames (...)]: the truthy arguments joined by a space. *)
Fixpoint classNames (args : list Value) : string :=
  match args with
  | [] => EmptyString
  | v :: rest =>
      if truthy v
      then let tail := classNames rest in
           if String.eqb tail EmptyString then string_of v
           else string_of v ++ " " ++ tail
      else classNames rest
  end.

(** [flag && styles.name]. *)
Definition and_style (flag : Value) (name : string) : Value :=
  if truthy flag then str name else flag.

(** *** Hook cells of one mounted instance *)

Record Hooks : Type := {
  state : State;
  node : option Node;
  checkboxId : string;
  handleBlur_cell : Memo BlurClosure;
  handleLargerSelectionArea_cell : Memo LargerSelectionAreaClosure;
  handleSelection_cell : Memo SelectionClosure;
  handleClick_cell : Memo ClickClosure;
  handleKeypress_cell : Memo KeypressClosure
}.

Definition initialState : State :=
  {| actionsMenuVisible := false;
     focus := {| focused := false; focusedInner := false |} |}.

(** What [actionsMarkup] and [disclosureMarkup] are after the
    [if (shortcutActions && !loading)] block. *)
Definition actionsMarkup (shortcutActions : option (list DisableableAction))
    (loading persistActions : bool) : VNode :=
  match shortcutActions with
  | Some actions =>
      if negb loading then
        if persistActions then
          jsx "div" [("className", value (str "Actions"));
                     ("onClick", listener on_stopPropagation)]
            [jsx "ButtonGroup" []
               [buttonsFrom actions [("size", value (str "slim"));
                                     ("plain", value (boolean true))]]]
        else
          jsx "div" [("className", value (str "Actions"));
                     ("onClick", listener on_stopPropagation)]
            [jsx "ButtonGroup" [("segmented", value (boolean true));
                                ("testID", value (str "ShortcutActions"))]
               [buttonsFrom actions [("size", value (str "slim"))]]]
      else null
  | None => null
  end.

Definition disclosureMarkup (shortcutActions : option (list DisableableAction))
    (loading persistActions visible : bool) : VNode :=
  match shortcutActions with
  | Some actions =>
      if negb loading then
        if persistActions then
          jsx "div" [("className", value (str "Disclosure"));
                     ("onClick", listener on_stopPropagation)]
            [jsx "Popover"
               [("activator",
                 element
                   (jsx "Button"
                      [("aria-label",
                        text (translate "Polaris.ResourceList.Item.actionsDropdown" []));
                       ("onClick", listener on_handleActionsClick);
                       ("plain", value (boolean true));
                       ("icon", value (str "horizontalDots"))]
                      []));
                ("onClose", listener on_handleCloseRequest);
                ("active", value (boolean visible))]
               [jsx "ActionList" [("items", items actions)] []]]
        else null
      else null
  | None => null
  end.

(** *** The component function *)

(** One run of the function body.  [prev] holds the hook cells of the
    previous render ([None] on mount) and [uniqueId] is what
    [getUniqueCheckboxID ()] returns in this render.  The result is the hook
    cells after the render and the element returned.

    [handleSelection] is bound after [handleLargerSelectionArea] in the
    source, but a closure reads the binding when it is called, so the
    closure of [handleLargerSelectionArea] made in a render sees the
    [handleSelection] of that same render. *)
Definition Item (props : Props) (context : ResourceListContextType)
    (uniqueId : string) (prev : option Hooks) : Hooks * VNode :=
  let persistActions := match persistActions props with Some b => b | None => false end in
  let onClick := match onClick props with Some f => f | None => noop end in
  let id := id props in
  let url := url props in
  let st := useState (option_map state prev) initialState in
  let actionsMenuVisible := actionsMenuVisible st in
  let focused := focused (focus st) in
  let focusedInner := focusedInner (focus st) in
  let node := match prev with Some h => node h | None => None end in
  let checkboxId := match prev with Some h => checkboxId h | None => uniqueId end in
  let selectable := selectable context in
  let selectMode := selectMode context in
  let loading := loading context in
  let onSelectionChange := onSelectionChange context in
  let selected := isSelected id (selectedItems context) in
  let handleBlur :=
    useCallback (option_map handleBlur_cell prev)
      {| blur_onClick := onClick |} [] in
  let handleSelection :=
    useCallback (option_map handleSelection_cell prev)
      {| sel_id := id; sel_onSelectionChange := onSelectionChange |}
      [of_string id; of_fn onSelectionChange] in
  let handleLargerSelectionArea :=
    useCallback (option_map handleLargerSelectionArea_cell prev)
      {| lsa_selected := selected;
         lsa_handleSelection := callback handleSelection |}
      [selected] in
  let handleClick :=
    useCallback (option_map handleClick_cell prev)
      {| clk_selectMode := selectMode; clk_onClick := onClick;
         clk_url := url; clk_id := id;
         clk_handleLargerSelectionArea := callback handleLargerSelectionArea |}
      [boolean selectMode; func onClick; of_string url] in
  let handleKeypress :=
    useCallback (option_map handleKeypress_cell prev)
      {| key_selectMode := selectMode; key_onClick := onClick |}
      [boolean selectMode] in
  let mediaMarkup :=
    match media props with
    | Some m => jsx "div" [("className", value (str "Media"));
                           ("testID", value (str "Media"))] [slot m]
    | None => null
    end in
  let checkboxAccessibilityLabel :=
    if truthy (of_string (accessibilityLabel props))
    then literal (string_of (of_string (accessibilityLabel props)))
    else translate "Polaris.Common.checkbox" [] in
  let handleMarkup :=
    if selectable then
      let label :=
        if truthy selected
        then translate "Polaris.ResourceList.Item.deselectItem"
               [("accessibilityLabel", checkboxAccessibilityLabel)]
        else translate "Polaris.ResourceList.Item.selectItem"
               [("accessibilityLabel", checkboxAccessibilityLabel)] in
      jsx "div" [("className", value (str "Handle"));
                 ("onClick", listener (on_handleLargerSelectionArea
                                         (callback handleLargerSelectionArea)));
                 ("testID", value (str "LargerSelectionArea"))]
        [jsx "div" [("onClick", listener on_stopPropagation);
                    ("className", value (str "CheckboxWrapper"))]
           [jsx "Checkbox"
              [("testID", value (str "Checkbox"));
               ("id", value (str checkboxId));
               ("label", text label);
               ("labelHidden", value (boolean true));
               ("onChange", listener (on_handleSelection (callback handleSelection)));
               ("checked", value selected);
               ("disabled", value (boolean loading))]
              []]]
    else null in
  let ownedMarkup :=
    if match media props with Some _ => true | None => false end || selectable
    then jsx "div" [("className", value (str "Owned"))] [handleMarkup; mediaMarkup]
    else null in
  let className :=
    classNames [str "Item";
                and_style (boolean focused) "focused";
                and_style (boolean selectable) "selectable";
                and_style selected "selected";
                and_style (boolean selectMode) "selectMode";
                and_style (boolean persistActions) "persistActions";
                and_style (boolean focusedInner) "focusedInner"] in
  let actionsMarkup := actionsMarkup (shortcutActions props) loading persistActions in
  let disclosureMarkup :=
    disclosureMarkup (shortcutActions props) loading persistActions
      actionsMenuVisible in
  let content :=
    match children props with
    | Some c => jsx "div" [("className", value (str "Content"))] [slot c]
    | None => null
    end in
  let containerMarkup :=
    jsx "div" [("testID", value (str "Item-Content"));
               ("className", value (str "Container"));
               ("id", value (of_string id))]
      [ownedMarkup; content; actionsMarkup; disclosureMarkup] in
  let tabIndex := if loading then number true 1 else number false 0 in
  let accessibleMarkup :=
    if truthy (of_string url) then
      jsx "UnstyledLink"
        [("aria-describedby", value (of_string id));
         ("aria-label", value (of_string (accessibilityLabel props)));
         ("className", value (str "Link"));
         ("url", value (of_string url));
         ("onFocus", listener on_handleAnchorFocus);
         ("onBlur", listener on_handleFocusedBlur);
         ("tabIndex", tabIndex)]
        []
    else
      jsx "button"
        [("className", value (str "Button"));
         ("aria-label", value (of_string (accessibilityLabel props)));
         ("aria-controls", value (of_string (ariaControls props)));
         ("aria-expanded",
          value (match ariaExpanded props with
                 | Some b => boolean b
                 | None => undefined
                 end));
         ("onClick", listener (on_handleClick (callback handleClick)));
         ("onFocus", listener on_handleAnchorFocus);
         ("onBlur", listener on_handleFocusedBlur);
         ("tabIndex", tabIndex)]
        [] in
  ({| state := st; node := node; checkboxId := checkboxId;
      handleBlur_cell := handleBlur;
      handleLargerSelectionArea_cell := handleLargerSelectionArea;
      handleSelection_cell := handleSelection;
      handleClick_cell := handleClick;
      handleKeypress_cell := handleKeypress |},
   jsx "div"
     [("ref", ref_node);
      ("className", value (str className));
      ("onClick", listener (on_handleClick (callback handleClick)));
      ("onFocus", listener on_handleFocus);
      ("onBlur", listener (on_handleBlur (callback handleBlur)));
      ("onMouseDown", listener on_handleMouseDown);
      ("onKeyUp", listener (on_handleKeypress (callback handleKeypress)));
      ("testID", value (str "Item-Wrapper"));
      ("data-href", value (of_string url))]
     [accessibleMarkup; containerMarkup]).

(** *** A mounted instance and what can happen to it *)

Record Instance : Type := {
  inst_props : Props;
  inst_context : ResourceListContextType;
  inst_hooks : Hooks;
  inst_output : VNode
}.

Definition render (props : Props) (context : ResourceListContextType)
    (uniqueId : string) (prev : option Hooks) : Instance :=
  let '(hooks, output) := Item props context uniqueId prev in
  {| inst_props := props; inst_context := context;
     inst_hooks := hooks; inst_output := output |}.

Definition mount (props : Props) (context : ResourceListContextType)
    (uniqueId : string) : Instance :=
  render props context uniqueId None.

(** The factory behind [getUniqueCheckboxID] counts up, so a later call
    hands out an id other than the one the row keeps. *)
Definition laterUniqueId (kept : string) : string := kept ++ "'".

(** A later render.  The function body calls [getUniqueCheckboxID ()]
    again and gets another id; what [useRef] does with it is up to
    [Item]. *)
Definition update (i : Instance) (props : Props)
    (context : ResourceListContextType) : Instance :=
  render props context (laterUniqueId (checkboxId (inst_hooks i)))
    (Some (inst_hooks i)).

(** React stores the root [div] in [node.current] when it commits, and
    [null] when the element goes away. *)
Definition attach (i : Instance) (n : option Node) : Instance :=
  let h := inst_hooks i in
  {| inst_props := inst_props i; inst_context := inst_context i;
     inst_hooks :=
       {| state := state h; node := n; checkboxId := checkboxId h;
          handleBlur_cell := handleBlur_cell h;
          handleLargerSelectionArea_cell := handleLargerSelectionArea_cell h;
          handleSelection_cell := handleSelection_cell h;
          handleClick_cell := handleClick_cell h;
          handleKeypress_cell := handleKeypress_cell h |};
     inst_output := inst_output i |}.

(** Running a handler: the state cells take the new values and the
    component renders again with the props and context it had. *)
Definition dispatch (i : Instance) (handler : Handler unit)
    : Instance * list Effect :=
  let h := inst_hooks i in
  let '(s, log) := run handler (state h) in
  (update
     {| inst_props := inst_props i; inst_context := inst_context i;
        inst_hooks :=
          {| state := s; node := node h; checkboxId := checkboxId h;
             handleBlur_cell := handleBlur_cell h;
             handleLargerSelectionArea_cell := handleLargerSelectionArea_cell h;
             handleSelection_cell := handleSelection_cell h;
             handleClick_cell := handleClick_cell h;
             handleKeypress_cell := handleKeypress_cell h |};
        inst_output := inst_output i |}
     (inst_props i) (inst_context i),
   log).

(** The handlers as the rendered elements hold them: each with the closure
    found in its [useCallback] cell. *)
Definition select (i : Instance) (value : bool) : Handler unit :=
  handleSelection (callback (handleSelection_cell (inst_hooks i))) value.

Definition largerSelectionAreaClick (i : Instance) : Handler unit :=
  handleLargerSelectionArea
    (callback (handleLargerSelectionArea_cell (inst_hooks i))).

Definition click (i : Instance) (doc : Document) (event : MouseEvent)
    : Handler unit :=
  handleClick (callback (handleClick_cell (inst_hooks i)))
    (node (inst_hooks i)) doc event.

Definition keyUp (i : Instance) (event : KeyboardEvent) : Handler unit :=
  handleKeypress (callback (handleKeypress_cell (inst_hooks i))) event.

Definition blur (i : Instance) (doc : Document) (event : FocusEvent)
    : Handler unit :=
  handleBlur (callback (handleBlur_cell (inst_hooks i)))
    (node (inst_hooks i)) doc event.

(** What can happen to a mounted row, one handler run at a time: a
    render, a commit of the ref, or one run of one handler.  A DOM event
    that reaches several listeners on its way up is a series of such runs
    ([Bubbling.dispatchEvent]). *)
Inductive Step : Type :=
| Render (props : Props) (context : ResourceListContextType)
| Attach (n : option Node)
| AnchorFocus
| FocusedBlur
| Focus
| MouseDown
| ActionsClick
| CloseRequest
| Blur (doc : Document) (event : FocusEvent)
| CheckboxChange (value : bool)
| LargerSelectionAreaClick
| Click (doc : Document) (event : MouseEvent)
| KeyUp (event : KeyboardEvent).

Definition step (i : Instance) (s : Step) : Instance * list Effect :=
  match s with
  | Render props context => (update i props context, [])
  | Attach n => (attach i n, [])
  | AnchorFocus => dispatch i handleAnchorFocus
  | FocusedBlur => dispatch i handleFocusedBlur
  | Focus => dispatch i handleFocus
  | MouseDown => dispatch i handleMouseDown
  | ActionsClick => dispatch i handleActionsClick
  | CloseRequest => dispatch i handleCloseRequest
  | Blur doc event => dispatch i (blur i doc event)
  | CheckboxChange v => dispatch i (select i v)
  | LargerSelectionAreaClick => dispatch i (largerSelectionAreaClick i)
  | Click doc event => dispatch i (click i doc event)
  | KeyUp event => dispatch i (keyUp i event)
  end.

Fixpoint steps (i : Instance) (history : list Step) : Instance * list Effect :=
  match history with
  | [] => (i, [])
  | s :: rest =>
      let '(i1, log1) := step i s in
      let '(i2, log2) := steps i1 rest in
      (i2, (log1 ++ log2)%list)
  end.

(** The instance a row is after a history that starts with its mount. *)
Definition after (props : Props) (context : ResourceListContextType)
    (uniqueId : string) (history : list Step) : Instance :=
  fst (steps (mount props context uniqueId) history).

(** *** Readings of the current render *)

Definition current_onClick (i : Instance) : Fn :=
  match onClick (inst_props i) with Some f => f | None => noop end.

Definition current_selected (i : Instance) : Value :=
  isSelected (id (inst_props i)) (selectedItems (inst_context i)).

Definition stateOf (i : Instance) : State := state (inst_hooks i).

Definition after_step (i : Instance) (s : Step) : Instance := fst (step i s).

Definition log_of (i : Instance) (s : Step) : list Effect := snd (step i s).

(** A callback row has an [onClick] other than [noop]; any other row
    relies on its link. *)
Definition isCallbackRow (props : Props) : bool :=
  negb (Fn_eqb (match onClick props with Some f => f | None => noop end) noop).

(** The navigation a handler asked for: [window.open] and [anchor.click]. *)
Definition is_navigation (e : Effect) : bool :=
  match e with
  | window_open _ _ => true
  | element_click _ => true
  | _ => false
  end.

Definition navigation (log : list Effect) : list Effect :=
  filter is_navigation log.

(** The calls of [log] that reach [f]. *)
Definition calls_to (f : Fn) (log : list Effect) : list (list Value) :=
  flat_map (fun e => match e with
                     | called g args => if Fn_eqb f g then [args] else []
                     | _ => []
                     end) log.

(** An effect somebody outside the component can see.  Calling [noop]
    does nothing. *)
Definition observable (e : Effect) : bool :=
  match e with
  | called f _ => negb (Fn_eqb f noop)
  | _ => true
  end.

(** No render of the history hands the row an [onClick]. *)
Definition without_onClick (s : Step) : bool :=
  match s with
  | Render props _ => match onClick props with Some _ => false | None => true end
  | _ => true
  end.

(** The closures whose dependency lists name what they read are current in
    exactly those readings. *)
Record cells_current (p : Props) (c : ResourceListContextType) (h : Hooks)
    : Prop := {
  cur_sel :
    callback (handleSelection_cell h) =
    {| sel_id := id p; sel_onSelectionChange := onSelectionChange c |};
  cur_sel_deps :
    deps (handleSelection_cell h) =
    [of_string (id p); of_fn (onSelectionChange c)];
  cur_lsa :
    lsa_selected (callback (handleLargerSelectionArea_cell h)) =
    isSelected (id p) (selectedItems c);
  cur_lsa_deps :
    deps (handleLargerSelectionArea_cell h) =
    [isSelected (id p) (selectedItems c)];
  cur_clk_selectMode :
    clk_selectMode (callback (handleClick_cell h)) = selectMode c;
  cur_clk_onClick :
    clk_onClick (callback (handleClick_cell h)) =
    match onClick p with Some f => f | None => noop end;
  cur_clk_url : clk_url (callback (handleClick_cell h)) = url p;
  cur_clk_deps :
    deps (handleClick_cell h) =
    [boolean (selectMode c);
     func (match onClick p with Some f => f | None => noop end);
     of_string (url p)];
  cur_key : key_selectMode (callback (handleKeypress_cell h)) = selectMode c;
  cur_key_deps : deps (handleKeypress_cell h) = [boolean (selectMode c)]
}.

Definition Current (i : Instance) : Prop :=
  cells_current (inst_props i) (inst_context i) (inst_hooks i).

(** [handleBlur] is stored under an empty dependency list. *)
Definition BlurCell (f : Fn) (i : Instance) : Prop :=
  handleBlur_cell (inst_hooks i) = mkMemo {| blur_onClick := f |} [].

(** The row has no [onClick] and the stored [handleKeypress] read none. *)
Definition KeypressNoop (i : Instance) : Prop :=
  onClick (inst_props i) = None /\
  key_onClick (callback (handleKeypress_cell (inst_hooks i))) = noop.

(** The children of an element. *)
Definition kids (v : VNode) : list VNode :=
  match v with
  | jsx _ _ k => k
  | _ => []
  end.

(** Where [actionsMarkup] and [disclosureMarkup] sit in the returned
    element: third and fourth child of the container, which is the second
    child of the wrapper. *)
Definition renderedActions (output : VNode) : VNode :=
  nth 2 (kids (nth 1 (kids output) null)) null.

Definition renderedDisclosure (output : VNode) : VNode :=
  nth 3 (kids (nth 1 (kids output) null)) null.

(** The returned element is the one of the last render. *)
Definition OutputCurrent (i : Instance) : Prop :=
  let persist :=
    match persistActions (inst_props i) with Some b => b | None => false end in
  renderedActions (inst_output i) =
    actionsMarkup (shortcutActions (inst_props i)) (loading (inst_context i))
      persist /\
  renderedDisclosure (inst_output i) =
    disclosureMarkup (shortcutActions (inst_props i)) (loading (inst_context i))
      persist (actionsMenuVisible (stateOf i)).

End Item.

(** ** Concrete rows, contexts and documents *)

Module Scenario.

Import JS React Item.

(** A row with id ["a"]; the other props as given. *)
Definition row (href : option string) (handler : option Fn)
    (actions : option (list DisableableAction)) (persist : option bool) : Props :=
  {| children := None; url := href; media := None;
     shortcutActions := actions; ariaControls := None; ariaExpanded := None;
     persistActions := persist; accessibilityLabel := None;
     id := Some "a"; onClick := handler |}.

(** A list context that reports selection changes to [external 7]. *)
Definition listContext (mode : bool) (selected : option ResourceListSelectedItems)
    : ResourceListContextType :=
  {| selectable := true; selectMode := mode; loading := false;
     onSelectionChange := Some (external 7); selectedItems := selected |}.

(** A context of a list that does not track selection. *)
Definition bareContext : ResourceListContextType :=
  {| selectable := false; selectMode := false; loading := false;
     onSelectionChange := None; selectedItems := None |}.

(** A page in which node 0 is the row, node 1 its link, node 2 some other
    element inside the row, and every other node is outside of it. *)
Definition page : Document :=
  {| contains := fun n m =>
       match m with
       | Some k => Nat.eqb n 0 && Nat.leb k 2
       | None => false
       end;
     querySelector := fun n selector =>
       if Nat.eqb n 0 && String.eqb selector "a" then Some 1 else None;
     tagName := fun n => if Nat.eqb n 1 then "A" else "DIV" |}.

Definition plainClick : MouseEvent :=
  {| target := 2; ctrlKey := false; metaKey := false |}.

Definition ctrlClick : MouseEvent :=
  {| target := 2; ctrlKey := true; metaKey := false |}.

Definition enter : KeyboardEvent := {| key := "Enter" |}.

(** A row in selection mode that was mounted unselected and has since
    been selected. *)
Definition selectedSinceMount : Instance :=
  after (row (Some "/a") None None None) (listContext true (Some (Items [])))
    "ResourceListItemCheckbox1"
    [Attach (Some 0);
     Render (row (Some "/a") None None None)
       (listContext true (Some (Items ["a"])))].

(** A row whose parent passed [external 1] as [onClick] at mount and
    passes [external 2] now. *)
Definition handlerReplaced : Instance :=
  after (row None (Some (external 1)) None None) (listContext false None)
    "ResourceListItemCheckbox1"
    [Attach (Some 0);
     Render (row None (Some (external 2)) None None) (listContext false None)].

(** A link row in a list that does not track selection. *)
Definition untrackedRow : Instance :=
  after (row (Some "/a") None None None) bareContext
    "ResourceListItemCheckbox1"
    [Attach (Some 0)].

(** A link row that holds focus, reached through a focus event. *)
Definition focusedLinkRow : Instance :=
  after (row (Some "/a") None None None) (listContext false None)
    "ResourceListItemCheckbox1"
    [Attach (Some 0); Focus].

(** The link loses focus to node 9, which lies outside the row. *)
Definition blurOut : FocusEvent :=
  {| blurTarget := 1; relatedTarget := Some 9 |}.

(** The link loses focus to node 2, which lies inside the row. *)
Definition blurWithin : FocusEvent :=
  {| blurTarget := 1; relatedTarget := Some 2 |}.

(** A link row that was mounted with [external 1] as [onClick] and is
    rendered without an [onClick] now. *)
Definition lostOnClick : Instance :=
  after (row (Some "/a") (Some (external 1)) None None) (listContext false None)
    "ResourceListItemCheckbox1"
    [Attach (Some 0);
     Render (row (Some "/a") None None None) (listContext false None)].



(** [page], with node 2 a link inside the content of the row. *)
Definition pageWithContentLink : Document :=
  {| contains := contains page;
     querySelector := querySelector page;
     tagName := fun n => if Nat.eqb n 1 || Nat.eqb n 2 then "A" else "DIV" |}.

(** A row with an empty array of shortcut actions behind a disclosure. *)
Definition emptyActionsRow : Props :=
  row (Some "/a") None (Some []) (Some true).

End Scenario.

(** ** Reading the returned element *)

Module ItemView.

Import JS React Item.

Fixpoint lookup (name : string) (attrs : list (string * Attr)) : option Attr :=
  match attrs with
  | [] => None
  | (n, a) :: rest => if String.eqb n name then Some a else lookup name rest
  end.

(** The prop [name] of an element. *)
Definition attr (name : string) (v : VNode) : option Attr :=
  match v with
  | jsx _ attrs _ => lookup name attrs
  | _ => None
  end.

Definition typeOf (v : VNode) : option string :=
  match v with
  | jsx type _ _ => Some type
  | _ => None
  end.

(** The places of the returned element, by the JSX that builds it. *)
Definition accessibleMarkupOf (output : VNode) : VNode :=
  nth 0 (kids output) null.

Definition containerMarkupOf (output : VNode) : VNode :=
  nth 1 (kids output) null.

Definition ownedMarkupOf (output : VNode) : VNode :=
  nth 0 (kids (containerMarkupOf output)) null.


Definition handleMarkupOf (output : VNode) : VNode :=
  nth 0 (kids (ownedMarkupOf output)) null.

Definition mediaMarkupOf (output : VNode) : VNode :=
  nth 1 (kids (ownedMarkupOf output)) null.

Definition checkboxOf (output : VNode) : VNode :=
  nth 0 (kids (nth 0 (kids (handleMarkupOf output)) null)) null.

Definition popoverOf (output : VNode) : VNode :=
  nth 0 (kids (renderedDisclosure output)) null.

Definition buttonGroupOf (output : VNode) : VNode :=
  nth 0 (kids (renderedActions output)) null.

(** The element a row shows is the one the function body returns for the
    props, context and hook cells the row has. *)
Definition Settled (i : Instance) : Prop :=
  update i (inst_props i) (inst_context i) = i.

(** The steps that run [handleActionsClick] or [handleCloseRequest]. *)
Definition is_disclosure_step (s : Step) : bool :=
  match s with
  | ActionsClick | CloseRequest => true
  | _ => false
  end.

(** The steps whose handler can reach a callback, the window or the
    event: the checkbox, the larger selection area, a click, a key. *)
Definition is_outward_step (s : Step) : bool :=
  match s with
  | CheckboxChange _ | LargerSelectionAreaClick | Click _ _ | KeyUp _ => true
  | _ => false
  end.


Definition option_eqb {A : Type} (eqb : A -> A -> bool) (a b : option A)
    : bool :=
  match a, b with
  | Some x, Some y => eqb x y
  | None, None => true
  | _, _ => false
  end.

(** The step is not a render that hands the row another [id] or the
    list another [onSelectionChange] than [props] and [context] have. *)
Definition keeps_wiring (props : Props) (context : ResourceListContextType)
    (s : Step) : bool :=
  match s with
  | Render props' context' =>
      option_eqb String.eqb (id props') (id props)
      && option_eqb Fn_eqb (onSelectionChange context')
           (onSelectionChange context)
  | _ => true
  end.

(** The row has the [id] and the [onSelectionChange] it was mounted
    with, and so do the stored [handleSelection] and the one that the
    stored [handleLargerSelectionArea] holds. *)
Definition Wired (props : Props) (context : ResourceListContextType)
    (i : Instance) : Prop :=
  id (inst_props i) = id props
  /\ onSelectionChange (inst_context i) = onSelectionChange context
  /\ callback (handleSelection_cell (inst_hooks i)) =
     {| sel_id := id props;
        sel_onSelectionChange := onSelectionChange context |}
  /\ lsa_handleSelection
       (callback (handleLargerSelectionArea_cell (inst_hooks i))) =
     {| sel_id := id props;
        sel_onSelectionChange := onSelectionChange context |}.

End ItemView.

(** ** DOM events: the listeners an event reaches on its way up *)

Module Bubbling.

Import JS React Item ItemView.

(** The events the row listens to, each with what its handlers read. *)
Inductive DomEvent : Type :=
| dom_click (event : MouseEvent)
| dom_focus
| dom_blur (event : FocusEvent)
| dom_mousedown
| dom_keyup (event : KeyboardEvent).

(** The prop under which React finds the listener of an event. *)
Definition listenerProp (e : DomEvent) : string :=
  match e with
  | dom_click _ => "onClick"
  | dom_focus => "onFocus"
  | dom_blur _ => "onBlur"
  | dom_mousedown => "onMouseDown"
  | dom_keyup _ => "onKeyUp"
  end.

(** The elements from the root of the returned element down to the
    target; [path] gives the child to descend into at each level.  An
    element such as [UnstyledLink] stands for the DOM element it renders
    and hands its listeners to. *)
Fixpoint elementsTo (v : VNode) (path : list nat) : list VNode :=
  v :: match path with
       | [] => []
       | k :: rest =>
           match nth_error (kids v) k with
           | Some child => elementsTo child rest
           | None => []
           end
       end.

Definition ownListener (prop : string) (v : VNode) : list Listener :=
  match attr prop v with
  | Some (listener l) => [l]
  | _ => []
  end.

(** The listeners an event meets as it bubbles: the target's first, the
    root's last. *)
Definition listenersAlong (prop : string) (output : VNode) (path : list nat)
    : list Listener :=
  rev (flat_map (ownListener prop) (elementsTo output path)).

(** One listener, run on one event. *)
Definition runListener (l : Listener) (node : option Node) (doc : Document)
    (e : DomEvent) : Handler unit :=
  match l, e with
  | on_stopPropagation, _ => stopPropagation
  | on_handleAnchorFocus, _ => handleAnchorFocus
  | on_handleFocusedBlur, _ => handleFocusedBlur
  | on_handleFocus, _ => handleFocus
  | on_handleMouseDown, _ => handleMouseDown
  | on_handleActionsClick, _ => handleActionsClick
  | on_handleCloseRequest, _ => handleCloseRequest
  | on_handleBlur c, dom_blur event => handleBlur c node doc event
  | on_handleLargerSelectionArea c, _ => handleLargerSelectionArea c
  | on_handleClick c, dom_click event => handleClick c node doc event
  | on_handleKeypress c, dom_keyup event => handleKeypress c event
  | _, _ => ret tt
  end.

Definition stopsPropagation (log : list Effect) : bool :=
  existsb (fun e => match e with
                    | propagation_stopped => true
                    | _ => false
                    end) log.

(** The listeners run in turn, on the state the one before left, until one
    of them stops the propagation. *)
Fixpoint bubble (listeners : list Listener) (node : option Node)
    (doc : Document) (e : DomEvent) : Handler unit :=
  match listeners with
  | [] => ret tt
  | l :: rest =>
      fun s =>
        let '(_, s1, log1) := runListener l node doc e s in
        if stopsPropagation log1 then (tt, s1, log1)
        else
          let '(_, s2, log2) := bubble rest node doc e s1 in
          (tt, s2, (log1 ++ log2)%list)
  end.

(** An event on the element at [path]: every listener it reaches runs,
    from the closures the last render attached, and the row renders once
    afterwards. *)
Definition dispatchEvent (i : Instance) (doc : Document) (path : list nat)
    (e : DomEvent) : Instance * list Effect :=
  dispatch i
    (bubble (listenersAlong (listenerProp e) (inst_output i) path)
       (node (inst_hooks i)) doc e).

Definition after_event (i : Instance) (doc : Document) (path : list nat)
    (e : DomEvent) : Instance :=
  fst (dispatchEvent i doc path e).

Definition log_of_event (i : Instance) (doc : Document) (path : list nat)
    (e : DomEvent) : list Effect :=
  snd (dispatchEvent i doc path e).

(** The element or one below it has a listener under [prop]. *)
Fixpoint hasListener (prop : string) (v : VNode) : bool :=
  match v with
  | jsx _ attrs children =>
      match lookup prop attrs with
      | Some _ => true
      | None => false
      end
      || existsb (hasListener prop) children
  | _ => false
  end.

(** The target is the link or button of the row, the first child of the
    wrapper, or lies below it. *)
Definition onAccessibleElement (path : list nat) : bool :=
  match path with
  | 0 :: _ => true
  | _ => false
  end.


End Bubbling.

(** ** The components that talk to the frame *)

Module Frame.

Import JS.

(** Objects are compared by identity; [object r] is the object with
    identity [r]. *)
Inductive Dep : Type :=
| plain (v : Value)
| object (r : nat).

Definition Dep_is (a b : Dep) : bool :=
  match a, b with
  | plain v, plain w => Object_is v w
  | object r, object q => Nat.eqb r q
  | _, _ => false
  end.

(** [areHookInputsEqual] on dependency lists that may hold objects. *)
Fixpoint areDepsEqual (next prev : list Dep) : bool :=
  match next, prev with
  | [], [] => true
  | a :: next', b :: prev' => Dep_is a b && areDepsEqual next' prev'
  | _, _ => false
  end.

Definition of_object (o : option nat) : Dep :=
  match o with Some r => object r | None => plain undefined end.

Definition of_boolean (b : option bool) : Dep :=
  match b with Some b => plain (boolean b) | None => plain undefined end.

(** [useEffect (effect, deps)] runs the effect after the mount, and after
    an update when a dependency changed. *)
Definition effectRuns (prev : option (list Dep)) (next : list Dep) : bool :=
  match prev with
  | None => true
  | Some d => negb (areDepsEqual next d)
  end.

(** Modelled from the spec: [ContextualSaveBarProps] of [Frame] is not
    among the sources.  The descriptor of the contextual save bar has a
    message, a save action, a discard action and a layout flag; the two
    actions are objects. *)
Record ContextualSaveBarProps : Type := {
  message : option string;
  saveAction : option nat;
  discardAction : option nat;
  alignContentFlush : option bool
}.

Inductive LoadingAction : Type :=
| START
| STOP.

(** Modelled from the spec: the frame of [FrameContext] is not among the
    sources.  It registers one contextual save bar and starts and stops a
    loading indicator; a frame is known by its identity, and the calls the
    components make are logged, with those to the app bridge. *)
Inductive Call : Type :=
| setContextualSaveBar (frame : nat) (bar : ContextualSaveBarProps)
| removeContextualSaveBar (frame : nat)
| startLoading (frame : nat)
| stopLoading (frame : nat)
| AppBridgeLoading_create (appBridge : nat)
| dispatch (loading : nat) (action : LoadingAction).

(** *** ContextualSaveBar *)

(** The dependencies the first effect last ran under, and the frame that
    the cleanup of the second effect closed over. *)
Record SaveBarHooks : Type := {
  bar_deps : list Dep;
  cleanup_frame : nat
}.

(** One run of the function body followed by the effects React runs for
    it: the hook cells after, and the calls made.  The component returns
    [null]. *)
Definition ContextualSaveBar (props : ContextualSaveBarProps) (frame : nat)
    (prev : option SaveBarHooks) : SaveBarHooks * list Call * Item.VNode :=
  let deps := [plain (of_string (message props));
               of_object (saveAction props);
               of_object (discardAction props);
               of_boolean (alignContentFlush props)] in
  let first :=
    if effectRuns (option_map bar_deps prev) deps
    then [setContextualSaveBar frame
            {| message := message props;
               saveAction := saveAction props;
               discardAction := discardAction props;
               alignContentFlush := alignContentFlush props |}]
    else [] in
  let cleanup :=
    match prev with
    | None => frame
    | Some h => cleanup_frame h
    end in
  ({| bar_deps := deps; cleanup_frame := cleanup |}, first, Item.null).


(** The hook cells after a mount and a series of renders, and all calls
    made on the way. *)
Fixpoint saveBar_renders (h : SaveBarHooks)
    (renders : list (ContextualSaveBarProps * nat)) : SaveBarHooks * list Call :=
  match renders with
  | [] => (h, [])
  | (props, frame) :: rest =>
      let '(h1, log1, _) := ContextualSaveBar props frame (Some h) in
      let '(h2, log2) := saveBar_renders h1 rest in
      (h2, (log1 ++ log2)%list)
  end.

Definition saveBar_mounted (props : ContextualSaveBarProps) (frame : nat)
    (renders : list (ContextualSaveBarProps * nat)) : SaveBarHooks * list Call :=
  let '(h0, log0, _) := ContextualSaveBar props frame None in
  let '(h, log) := saveBar_renders h0 renders in
  (h, (log0 ++ log)%list).


(** The props of the last render. *)
Definition last_props (props : ContextualSaveBarProps)
    (renders : list (ContextualSaveBarProps * nat)) : ContextualSaveBarProps :=
  fst (last renders (props, 0)).

(** What a frame that keeps the last registered bar holds after [log]. *)
Fixpoint registered_bar (held : option ContextualSaveBarProps) (log : list Call)
    : option ContextualSaveBarProps :=
  match log with
  | [] => held
  | setContextualSaveBar _ bar :: rest => registered_bar (Some bar) rest
  | removeContextualSaveBar _ :: rest => registered_bar None rest
  | _ :: rest => registered_bar held rest
  end.

(** *** Loading *)

(** The [appBridgeLoading] ref, and what the cleanup of the effect closed
    over.  The object [AppBridgeLoading.create (appBridge)] returns is
    known by the app bridge it was made from. *)
Record LoadingHooks : Type := {
  appBridgeLoading : option nat;
  cleanup_appBridge : option nat;
  cleanup_loading_frame : nat
}.

(** The effect: which backend is told to start, and what the
    [appBridgeLoading] ref holds afterwards. *)
Definition Loading_effect (appBridge : option nat) (frame : nat)
    : option nat * list Call :=
  match appBridge with
  | None => (None, [startLoading frame])
  | Some app => (Some app, [AppBridgeLoading_create app; dispatch app START])
  end.

(** One run of the function body followed by its effect, which has an
    empty dependency list and so runs after the mount only; its cleanup
    keeps the [appBridge] and the [frame] of the mount. *)
Definition Loading (appBridge : option nat) (frame : nat)
    (prev : option LoadingHooks) : LoadingHooks * list Call * Item.VNode :=
  match prev with
  | None =>
      let '(current, calls) := Loading_effect appBridge frame in
      ({| appBridgeLoading := current; cleanup_appBridge := appBridge;
          cleanup_loading_frame := frame |}, calls, Item.null)
  | Some h => (h, [], Item.null)
  end.

Definition Loading_unmount (h : LoadingHooks) : list Call :=
  match cleanup_appBridge h with
  | None => [stopLoading (cleanup_loading_frame h)]
  | Some _ =>
      match appBridgeLoading h with
      | Some loading => [dispatch loading STOP]
      | None => []
      end
  end.

Fixpoint loading_renders (h : LoadingHooks) (renders : list (option nat * nat))
    : LoadingHooks * list Call :=
  match renders with
  | [] => (h, [])
  | (appBridge, frame) :: rest =>
      let '(h1, log1, _) := Loading appBridge frame (Some h) in
      let '(h2, log2) := loading_renders h1 rest in
      (h2, (log1 ++ log2)%list)
  end.

Definition loading_lifetime (appBridge : option nat) (frame : nat)
    (renders : list (option nat * nat)) : list Call :=
  let '(h0, log0, _) := Loading appBridge frame None in
  let '(h, log) := loading_renders h0 renders in
  (log0 ++ log ++ Loading_unmount h)%list.

End Frame.

(** * Facts *)

Unset Implicit Arguments.

Module JSFacts.

Import JS.

Lemma Fn_eqb_eq f g : Fn_eqb f g = true <-> f = g.
Proof.
  destruct f as [|n], g as [|m]; simpl; split; try congruence; intro H.
  - apply Nat.eqb_eq in H. now subst.
  - injection H as ->. apply Nat.eqb_refl.
Qed.

Lemma Fn_eqb_refl f : Fn_eqb f f = true.
Proof. now apply Fn_eqb_eq. Qed.

Lemma Object_is_eq v w : Object_is v w = true <-> v = w.
Proof.
  destruct v as [|a|a|f], w as [|b|b|g]; simpl; split; try congruence; intro H.
  - apply Bool.eqb_prop in H. now subst.
  - injection H as ->. apply Bool.eqb_reflx.
  - apply String.eqb_eq in H. now subst.
  - injection H as ->. apply String.eqb_refl.
  - apply Fn_eqb_eq in H. now subst.
  - injection H as ->. apply Fn_eqb_refl.
Qed.

Lemma includes_In l s : includes l (Some s) = true <-> In s l.
Proof.
  unfold includes. rewrite existsb_exists. split.
  - intros [x [Hin Heq]]. apply String.eqb_eq in Heq. now subst.
  - intro Hin. exists s. split; [assumption | apply String.eqb_refl].
Qed.

Lemma of_string_inj a b : of_string a = of_string b -> a = b.
Proof. destruct a, b; simpl; congruence. Qed.

Lemma of_fn_inj a b : of_fn a = of_fn b -> a = b.
Proof. destruct a, b; simpl; congruence. Qed.

Lemma truthy_of_string_nonempty s :
  s <> EmptyString -> truthy (of_string (Some s)) = true.
Proof.
  intro H. simpl. destruct (String.eqb_spec s EmptyString); [contradiction | reflexivity].
Qed.

End JSFacts.

Module ReactFacts.

Import JS React JSFacts.

Lemma areHookInputsEqual_eq next prev :
  areHookInputsEqual next prev = true <-> next = prev.
Proof.
  revert prev. induction next as [|a next IH]; intros [|b prev]; simpl;
    split; try congruence; intro H.
  - apply andb_true_iff in H as [Hab Hrest].
    apply Object_is_eq in Hab. apply IH in Hrest. now subst.
  - injection H as -> ->. apply andb_true_iff. split.
    + now apply Object_is_eq.
    + now apply IH.
Qed.

Lemma useCallback_deps {C : Type} (prev : option (Memo C)) fn nextDeps :
  deps (useCallback prev fn nextDeps) = nextDeps.
Proof.
  unfold useCallback. destruct prev as [m|]; [|reflexivity].
  destruct (areHookInputsEqual nextDeps (deps m)) eqn:E; [|reflexivity].
  apply areHookInputsEqual_eq in E. now subst.
Qed.

(** A [useCallback] cell after a render holds either the closure of this
    render, or the stored one, and then the dependencies did not move. *)
Lemma useCallback_cases {C : Type} (prev : option (Memo C)) fn nextDeps :
  useCallback prev fn nextDeps = mkMemo fn nextDeps \/
  exists m, prev = Some m /\ deps m = nextDeps /\ useCallback prev fn nextDeps = m.
Proof.
  unfold useCallback. destruct prev as [m|]; [|now left].
  destruct (areHookInputsEqual nextDeps (deps m)) eqn:E; [|now left].
  right. exists m. apply areHookInputsEqual_eq in E. now subst.
Qed.

End ReactFacts.

Module ItemFacts.

Import JS React Item JSFacts ReactFacts.

(** ** Histories preserve what every step preserves *)

Section Reachability.

Variable Allowed : Step -> bool.
Variable Inv : Instance -> Prop.
Hypothesis Preserve :
  forall i s, Allowed s = true -> Inv i -> Inv (after_step i s).

Lemma steps_invariant i history :
  forallb Allowed history = true -> Inv i -> Inv (fst (steps i history)).
Proof.
  revert i. induction history as [|s rest IH]; intros i Hall Hi; [exact Hi|].
  simpl in Hall. apply andb_true_iff in Hall as [Hs Hrest].
  simpl. specialize (Preserve i s Hs Hi). unfold after_step in Preserve.
  destruct (step i s) as [i1 log1]. simpl in Preserve.
  specialize (IH i1 Hrest Preserve).
  destruct (steps i1 rest) as [i2 log2]. exact IH.
Qed.

End Reachability.

Lemma forallb_any (history : list Step) :
  forallb (fun _ => true) history = true.
Proof. induction history; simpl; auto. Qed.

Lemma after_invariant (Inv : Instance -> Prop) :
  (forall i s, Inv i -> Inv (after_step i s)) ->
  forall props context uniqueId history,
    Inv (mount props context uniqueId) ->
    Inv (after props context uniqueId history).
Proof.
  intros Hstep props context uniqueId history Hmount.
  apply (steps_invariant (fun _ => true) Inv); auto using forallb_any.
Qed.

(** ** What a render, a commit and a dispatch leave alone *)

Lemma render_props p c u prev : inst_props (render p c u prev) = p.
Proof. reflexivity. Qed.

Lemma render_context p c u prev : inst_context (render p c u prev) = c.
Proof. reflexivity. Qed.

Lemma render_state p c u h : stateOf (render p c u (Some h)) = state h.
Proof. reflexivity. Qed.

Lemma render_node p c u h : node (inst_hooks (render p c u (Some h))) = node h.
Proof. reflexivity. Qed.

Lemma mount_state p c u : stateOf (mount p c u) = initialState.
Proof. reflexivity. Qed.

Lemma dispatch_props i handler : inst_props (fst (dispatch i handler)) = inst_props i.
Proof.
  unfold dispatch. destruct (run handler (state (inst_hooks i))). reflexivity.
Qed.

Lemma dispatch_context i handler :
  inst_context (fst (dispatch i handler)) = inst_context i.
Proof.
  unfold dispatch. destruct (run handler (state (inst_hooks i))). reflexivity.
Qed.

Lemma dispatch_state i handler :
  stateOf (fst (dispatch i handler)) = fst (run handler (stateOf i)).
Proof.
  unfold dispatch, stateOf. destruct (run handler (state (inst_hooks i))).
  reflexivity.
Qed.

Lemma dispatch_log i handler :
  snd (dispatch i handler) = snd (run handler (stateOf i)).
Proof.
  unfold dispatch, stateOf. destruct (run handler (state (inst_hooks i))).
  reflexivity.
Qed.

(** ** The closures in the cells against the current render *)

Lemma mount_current p c u : Current (mount p c u).
Proof. constructor; reflexivity. Qed.

Ltac cell_cases cell :=
  match goal with
  | |- context [useCallback (Some (cell ?h)) ?fn ?d] =>
      let m := fresh "m" in
      let Hprev := fresh "Hprev" in
      let Hdeps := fresh "Hdeps" in
      let E := fresh "E" in
      destruct (useCallback_cases (Some (cell h)) fn d)
        as [E | [m [Hprev [Hdeps E]]]];
      rewrite E; clear E;
      [ reflexivity
      | injection Hprev as <- ]
  end.

Lemma update_current p0 c0 h p c u :
  cells_current p0 c0 h -> Current (render p c u (Some h)).
Proof.
  intros [Hsel Hseld Hlsa Hlsad Hsm Hoc Hurl Hclkd Hkey Hkeyd].
  constructor; cbn -[useCallback isSelected].
  - cell_cases handleSelection_cell. rewrite Hsel. rewrite Hseld in Hdeps.
    injection Hdeps as Hid Hosc.
    apply of_string_inj in Hid. apply of_fn_inj in Hosc. congruence.
  - apply useCallback_deps.
  - cell_cases handleLargerSelectionArea_cell.
    rewrite Hlsa. rewrite Hlsad in Hdeps. now injection Hdeps.
  - apply useCallback_deps.
  - cell_cases handleClick_cell.
    rewrite Hsm. rewrite Hclkd in Hdeps. now injection Hdeps.
  - cell_cases handleClick_cell.
    rewrite Hoc. rewrite Hclkd in Hdeps. now injection Hdeps.
  - cell_cases handleClick_cell. rewrite Hurl. rewrite Hclkd in Hdeps.
    injection Hdeps as _ _ Hu. now apply of_string_inj.
  - apply useCallback_deps.
  - cell_cases handleKeypress_cell.
    rewrite Hkey. rewrite Hkeyd in Hdeps. now injection Hdeps.
  - apply useCallback_deps.
Qed.

Lemma step_current i s : Current i -> Current (after_step i s).
Proof.
  intro Hi. unfold after_step.
  assert (Hd : forall handler, Current (fst (dispatch i handler))).
  { intro handler. unfold dispatch.
    destruct (run handler (state (inst_hooks i))) as [s' log]. simpl.
    unfold update. simpl.
    apply (update_current (inst_props i) (inst_context i)).
    destruct Hi; constructor; assumption. }
  destruct s; unfold step; try apply Hd.
  - cbn [fst]. unfold update.
    now apply (update_current (inst_props i) (inst_context i)).
  - cbn [fst]. destruct Hi; constructor; assumption.
Qed.

Lemma after_current p c u history : Current (after p c u history).
Proof.
  apply after_invariant; [apply step_current | apply mount_current].
Qed.

(** ** The closure of [handleBlur] is the one of the mount *)

Lemma update_blur_cell h p c u f :
  handleBlur_cell h = mkMemo {| blur_onClick := f |} [] ->
  handleBlur_cell (inst_hooks (render p c u (Some h))) =
  mkMemo {| blur_onClick := f |} [].
Proof.
  intro H. cbn -[useCallback]. rewrite H. reflexivity.
Qed.

Lemma step_blur_cell f i s : BlurCell f i -> BlurCell f (after_step i s).
Proof.
  unfold BlurCell, after_step. intro Hi.
  assert (Hd : forall handler,
             handleBlur_cell (inst_hooks (fst (dispatch i handler))) =
             mkMemo {| blur_onClick := f |} []).
  { intro handler. unfold dispatch.
    destruct (run handler (state (inst_hooks i))) as [s' log].
    cbn [fst]. unfold update. now apply update_blur_cell. }
  destruct s; unfold step; try apply Hd; cbn [fst].
  - unfold update. now apply update_blur_cell.
  - exact Hi.
Qed.

Lemma after_blur_cell p c u history :
  BlurCell (match onClick p with Some f => f | None => noop end)
    (after p c u history).
Proof.
  apply (after_invariant (BlurCell _)); [apply step_blur_cell | reflexivity].
Qed.

(** ** A row that is never handed an [onClick] keeps [noop] in
       [handleKeypress] *)

Lemma step_keypress_noop i s :
  without_onClick s = true -> KeypressNoop i -> KeypressNoop (after_step i s).
Proof.
  unfold KeypressNoop, after_step. intros Hs [Hp Hk].
  assert (Hu : forall h p c uid,
             handleKeypress_cell h = handleKeypress_cell (inst_hooks i) ->
             onClick p = None ->
             key_onClick
               (callback
                  (handleKeypress_cell
                     (inst_hooks (render p c uid (Some h))))) = noop).
  { intros h p c uid Hcell Hnone. cbn -[useCallback]. rewrite Hnone, Hcell.
    destruct (useCallback_cases (Some (handleKeypress_cell (inst_hooks i)))
                {| key_selectMode := selectMode c; key_onClick := noop |}
                [boolean (selectMode c)]) as [E | [m [Hprev [_ E]]]];
      rewrite E; [reflexivity|].
    injection Hprev as <-. exact Hk. }
  assert (Hd : forall handler,
             onClick (inst_props (fst (dispatch i handler))) = None /\
             key_onClick
               (callback
                  (handleKeypress_cell (inst_hooks (fst (dispatch i handler))))) =
             noop).
  { intro handler. split; [now rewrite dispatch_props|].
    unfold dispatch. destruct (run handler (state (inst_hooks i))) as [s' log].
    cbn [fst]. unfold update. cbn [inst_hooks inst_props inst_context].
    now apply (Hu (Build_Hooks _ _ _ _ _ _ _ _)). }
  destruct s; unfold step; try apply Hd; cbn [fst].
  - simpl in Hs. destruct (onClick props) eqn:Hoc; [discriminate|].
    split; [exact Hoc|]. unfold update. now apply Hu.
  - split; assumption.
Qed.

Lemma after_keypress_noop p c u history :
  onClick p = None ->
  forallb without_onClick history = true ->
  KeypressNoop (after p c u history).
Proof.
  intros Hp Hall. unfold after.
  apply (steps_invariant without_onClick KeypressNoop);
    [apply step_keypress_noop | exact Hall |].
  split; [exact Hp|]. cbn. now rewrite Hp.
Qed.

(** ** The returned element follows the last render *)

Lemma render_output_current p c u prev : OutputCurrent (render p c u prev).
Proof. split; reflexivity. Qed.

Lemma step_output_current i s : OutputCurrent i -> OutputCurrent (after_step i s).
Proof.
  intro Hi. unfold after_step.
  assert (Hd : forall handler, OutputCurrent (fst (dispatch i handler))).
  { intro handler. unfold dispatch.
    destruct (run handler (state (inst_hooks i))) as [s' log]. cbn [fst].
    apply render_output_current. }
  destruct s; unfold step; try apply Hd; cbn [fst].
  - apply render_output_current.
  - exact Hi.
Qed.

Lemma after_output_current p c u history : OutputCurrent (after p c u history).
Proof.
  apply after_invariant;
    [apply step_output_current | apply render_output_current].
Qed.

(** ** Steps seen through the handler they run *)

Lemma step_state_dispatch i handler s :
  step i s = dispatch i handler ->
  stateOf (after_step i s) = fst (run handler (stateOf i)) /\
  log_of i s = snd (run handler (stateOf i)).
Proof.
  intro H. unfold after_step, log_of. rewrite H.
  split; [apply dispatch_state | apply dispatch_log].
Qed.

End ItemFacts.

(** * The claims *)

Module ItemSpec.

Import JS React Item JSFacts ReactFacts ItemFacts.

(** ** Selection *)

(** C1.  For a row id and a selection context, [isSelected] returns [true]
    exactly when [selectedItems] is the [SELECT_ALL_ITEMS] sentinel or an
    array that has the id among its members; with the sentinel it returns
    [true] for every id, whether or not the context knows it otherwise. *)
Theorem isSelected_iff_all_or_member (rowId : string)
    (context : ResourceListContextType) :
  (isSelected (Some rowId) (selectedItems context) = boolean true <->
   selectedItems context = Some SELECT_ALL_ITEMS \/
   exists ids, selectedItems context = Some (Items ids) /\ In rowId ids)
  /\ isSelected (Some rowId) (Some SELECT_ALL_ITEMS) = boolean true.
Proof.
  split; [|reflexivity].
  destruct (selectedItems context) as [[ids|]|]; simpl.
  - rewrite orb_false_r. split.
    + intro H. right. exists ids. split; [reflexivity|].
      apply includes_In. simpl. congruence.
    + intros [H | [ids' [H Hin]]]; [discriminate|].
      injection H as <-. apply includes_In in Hin. simpl in Hin.
      now rewrite Hin.
  - split; [now left | reflexivity].
  - split; [discriminate|].
    intros [H | [ids [H _]]]; discriminate.
Qed.

(** C6.  On a row that has an id and whose context supplies
    [onSelectionChange], [select (true)] calls [onSelectionChange] once,
    with [(true, id)], and both [focused] and [focusedInner] are true
    afterwards. *)
Theorem select_true_notifies_and_focuses p c u history rowId f :
  id (inst_props (after p c u history)) = Some rowId ->
  onSelectionChange (inst_context (after p c u history)) = Some f ->
  log_of (after p c u history) (CheckboxChange true) =
    [called f [boolean true; str rowId]]
  /\ focus (stateOf (after_step (after p c u history) (CheckboxChange true))) =
     {| focused := true; focusedInner := true |}.
Proof.
  intros Hid Hosc. pose proof (after_current p c u history) as Hcur.
  remember (after p c u history) as i eqn:Ei.
  destruct (step_state_dispatch i (select i true) (CheckboxChange true) eq_refl)
    as [Hstate Hlog].
  rewrite Hstate, Hlog. unfold select.
  rewrite (cur_sel Hcur).
  unfold handleSelection. cbn [sel_id sel_onSelectionChange].
  rewrite Hid, Hosc. split; reflexivity.
Qed.

Lemma select_true_notifies_and_focuses_witness :
  log_of Scenario.selectedSinceMount (CheckboxChange true) =
    [called (external 7) [boolean true; str "a"]]
  /\ focus (stateOf (after_step Scenario.selectedSinceMount (CheckboxChange true))) =
     {| focused := true; focusedInner := true |}.
Proof.
  apply (select_true_notifies_and_focuses
           (Scenario.row (Some "/a") None None None)
           (Scenario.listContext true (Some (Items [])))
           "ResourceListItemCheckbox1"
           [Attach (Some 0);
            Render (Scenario.row (Some "/a") None None None)
              (Scenario.listContext true (Some (Items ["a"])))]
           "a" (external 7)); reflexivity.
Defined.

(** C7.  When the context supplies no [onSelectionChange], or the row has
    no id, [select (value)] calls nothing and returns normally, and the
    state of the row, its focus flags included, is what it was. *)
Theorem select_without_collaborator_does_nothing p c u history value :
  onSelectionChange (inst_context (after p c u history)) = None \/
  id (inst_props (after p c u history)) = None ->
  log_of (after p c u history) (CheckboxChange value) = []
  /\ stateOf (after_step (after p c u history) (CheckboxChange value)) =
     stateOf (after p c u history).
Proof.
  intros Habsent. pose proof (after_current p c u history) as Hcur.
  remember (after p c u history) as i eqn:Ei.
  destruct (step_state_dispatch i (select i value) (CheckboxChange value) eq_refl)
    as [Hstate Hlog].
  rewrite Hstate, Hlog. unfold select.
  rewrite (cur_sel Hcur).
  unfold handleSelection. cbn [sel_id sel_onSelectionChange].
  destruct Habsent as [H | H]; rewrite H.
  - destruct (id (inst_props i)); split; reflexivity.
  - split; reflexivity.
Qed.

Lemma select_without_collaborator_does_nothing_witness :
  log_of Scenario.untrackedRow (CheckboxChange true) = []
  /\ stateOf (after_step Scenario.untrackedRow (CheckboxChange true)) =
     stateOf Scenario.untrackedRow.
Proof.
  apply (select_without_collaborator_does_nothing
           (Scenario.row (Some "/a") None None None) Scenario.bareContext
           "ResourceListItemCheckbox1" [Attach (Some 0)] true).
  left. reflexivity.
Defined.

(** ** Activation *)

(** C2.  Outside selection mode, on a row with a navigation url (a
    non-empty one, which is what [url &&] lets through), a click whose
    target is not the embedded anchor asks for exactly one navigation: with
    ctrl or meta held, [window.open (url, '_blank')] and no anchor click;
    with neither held and an anchor in the subtree, a click on that
    anchor. *)
Theorem click_outside_anchor_navigates p c u history doc event href :
  selectMode (inst_context (after p c u history)) = false ->
  url (inst_props (after p c u history)) = Some href ->
  href <> EmptyString ->
  anchorIsTarget
    (embeddedAnchor (node (inst_hooks (after p c u history))) doc) event =
    false ->
  navigation (log_of (after p c u history) (Click doc event)) =
    if ctrlKey event || metaKey event
    then [window_open href "_blank"]
    else match embeddedAnchor (node (inst_hooks (after p c u history))) doc with
         | Some a => [element_click a]
         | None => []
         end.
Proof.
  intros Hmode Hurl Hne Htarget.
  pose proof (after_current p c u history) as Hcur.
  remember (after p c u history) as i eqn:Ei.
  destruct (step_state_dispatch i (click i doc event) (Click doc event) eq_refl)
    as [_ Hlog].
  rewrite Hlog. unfold click, handleClick.
  rewrite (cur_clk_selectMode Hcur), Hmode, Htarget.
  rewrite (cur_clk_url Hcur), Hurl.
  rewrite (truthy_of_string_nonempty href Hne).
  cbn [of_string string_of andb].
  destruct (negb (Fn_eqb (clk_onClick (callback (handleClick_cell (inst_hooks i))))
                    noop));
    destruct (ctrlKey event || metaKey event);
    try reflexivity;
    destruct (embeddedAnchor (node (inst_hooks i)) doc); reflexivity.
Qed.

Lemma click_outside_anchor_navigates_witness :
  navigation (log_of Scenario.untrackedRow (Click Scenario.page Scenario.ctrlClick)) =
    [window_open "/a" "_blank"]
  /\ navigation (log_of Scenario.untrackedRow
                   (Click Scenario.page Scenario.plainClick)) =
     [element_click 1].
Proof.
  split.
  - apply (click_outside_anchor_navigates
             (Scenario.row (Some "/a") None None None) Scenario.bareContext
             "ResourceListItemCheckbox1" [Attach (Some 0)]
             Scenario.page Scenario.ctrlClick "/a");
      try reflexivity; discriminate.
  - apply (click_outside_anchor_navigates
             (Scenario.row (Some "/a") None None None) Scenario.bareContext
             "ResourceListItemCheckbox1" [Attach (Some 0)]
             Scenario.page Scenario.plainClick "/a");
      try reflexivity; discriminate.
Defined.

(** Straight after the mount the closures are those of the only render,
    and a click in selection mode does what C3 says: propagation is
    stopped, [select] gets the negation of the selection state, and
    [onClick] is not called. *)
Lemma click_in_selectMode_after_mount p c u n doc event :
  selectMode c = true ->
  log_of (after p c u [Attach n]) (Click doc event) =
    (propagation_stopped ::
     snd (run (select (after p c u [Attach n])
                 (negb (truthy (current_selected (after p c u [Attach n])))))
            (stateOf (after p c u [Attach n]))))%list.
Proof.
  intro Hmode.
  destruct (step_state_dispatch (after p c u [Attach n])
              (click (after p c u [Attach n]) doc event) (Click doc event)
              eq_refl) as [_ Hlog].
  rewrite Hlog.
  unfold click, select, handleClick, handleLargerSelectionArea, handleSelection,
    current_selected.
  cbn -[isSelected]. rewrite Hmode.
  destruct (id p); destruct (onSelectionChange c); reflexivity.
Qed.

(** In selection mode a click runs [handleLargerSelectionArea] and
    nothing else, whatever the history: the first effect is the stopped
    propagation, and no call carries the argument list of [onClick]. *)
Lemma click_in_selectMode_shape p c u history doc event :
  selectMode (inst_context (after p c u history)) = true ->
  exists rest,
    log_of (after p c u history) (Click doc event) = propagation_stopped :: rest
    /\ (rest = [] \/
        exists f value rowId, rest = [called f [boolean value; str rowId]]).
Proof.
  intro Hmode.
  pose proof (after_current p c u history) as Hcur.
  remember (after p c u history) as i eqn:Ei.
  destruct (step_state_dispatch i (click i doc event) (Click doc event) eq_refl)
    as [_ Hlog].
  rewrite Hlog. unfold click, handleClick.
  rewrite (cur_clk_selectMode Hcur), Hmode.
  unfold handleLargerSelectionArea, handleSelection.
  destruct (sel_id _) as [rowId|]; [destruct (sel_onSelectionChange _) as [f|]|];
    eexists; (split; [reflexivity|]);
    solve [left; reflexivity | right; do 3 eexists; reflexivity].
Qed.

(** The handler of the larger selection area is stored under [selected]:
    whatever the history, it stops propagation and passes the negation of
    the current selection state to the [handleSelection] it holds. *)
Lemma largerSelectionArea_negates_current p c u history :
  log_of (after p c u history) LargerSelectionAreaClick =
    propagation_stopped ::
    snd (run (handleSelection
                (lsa_handleSelection
                   (callback
                      (handleLargerSelectionArea_cell
                         (inst_hooks (after p c u history)))))
                (negb (truthy (current_selected (after p c u history)))))
           (stateOf (after p c u history))).
Proof.
  pose proof (after_current p c u history) as Hcur.
  remember (after p c u history) as i eqn:Ei.
  destruct (step_state_dispatch i (largerSelectionAreaClick i)
              LargerSelectionAreaClick eq_refl) as [_ Hlog].
  rewrite Hlog.
  unfold largerSelectionAreaClick, handleLargerSelectionArea, current_selected.
  rewrite (cur_lsa Hcur). unfold handleSelection.
  destruct (sel_id _); [destruct (sel_onSelectionChange _)|]; reflexivity.
Qed.

(** C3.  The claim fails once the selection changes under a mounted row.
    The row below was mounted unselected in selection mode and is selected
    by now.  [handleClick] is stored under [selectMode, onClick, url], so
    it still holds the [handleLargerSelectionArea] of the mount, which read
    [selected] as false: the click calls [select (true)], where the
    negation of the current selection state is [false].  The handler of
    the larger selection area itself, stored under [selected], passes
    [false]. *)
Theorem click_in_selectMode_reads_stale_selected :
  selectMode (inst_context Scenario.selectedSinceMount) = true
  /\ current_selected Scenario.selectedSinceMount = boolean true
  /\ log_of Scenario.selectedSinceMount (Click Scenario.page Scenario.plainClick) =
     [propagation_stopped; called (external 7) [boolean true; str "a"]]
  /\ log_of Scenario.selectedSinceMount LargerSelectionAreaClick =
     [propagation_stopped; called (external 7) [boolean false; str "a"]].
Proof. repeat split. Qed.

(** Whatever the history, Enter in selection mode calls nothing, Enter
    outside of it makes one call without arguments, to the [onClick] that
    the stored [handleKeypress] read, and any other key calls nothing. *)
Lemma keyUp_log p c u history event :
  log_of (after p c u history) (KeyUp event) =
    if String.eqb (key event) "Enter"
       && negb (selectMode (inst_context (after p c u history)))
    then [called
            (key_onClick
               (callback
                  (handleKeypress_cell (inst_hooks (after p c u history)))))
            []]
    else [].
Proof.
  pose proof (after_current p c u history) as Hcur.
  remember (after p c u history) as i eqn:Ei.
  destruct (step_state_dispatch i (keyUp i event) (KeyUp event) eq_refl)
    as [_ Hlog].
  rewrite Hlog. unfold keyUp, handleKeypress. rewrite (cur_key Hcur).
  destruct (String.eqb (key event) "Enter" && negb (selectMode (inst_context i)));
    reflexivity.
Qed.

Lemma keyUp_state p c u history event :
  stateOf (after_step (after p c u history) (KeyUp event)) =
  stateOf (after p c u history).
Proof.
  remember (after p c u history) as i eqn:Ei.
  destruct (step_state_dispatch i (keyUp i event) (KeyUp event) eq_refl)
    as [Hstate _].
  rewrite Hstate. unfold keyUp, handleKeypress.
  destruct (String.eqb (key event) "Enter" && negb _); reflexivity.
Qed.

(** C8.  The claim fails once the parent hands the row another [onClick].
    [handleKeypress] is stored under [selectMode] alone, so after a render
    with a new [onClick] it still holds the one of the mount.  Outside
    selection mode, Enter calls [external 1] without arguments; the
    activation callback of the row, [external 2], is not called.  A click
    on the same row calls [external 2]. *)
Theorem enter_calls_stale_onClick :
  selectMode (inst_context Scenario.handlerReplaced) = false
  /\ current_onClick Scenario.handlerReplaced = external 2
  /\ log_of Scenario.handlerReplaced (KeyUp Scenario.enter) =
     [called (external 1) []]
  /\ calls_to (external 2)
       (log_of Scenario.handlerReplaced (KeyUp Scenario.enter)) = []
  /\ calls_to (external 2)
       (log_of Scenario.handlerReplaced
          (Click Scenario.page Scenario.plainClick)) = [[str "a"]].
Proof. repeat split. Qed.

(** X25.  On a row with a navigation url, Enter outside selection mode
    never navigates and never changes the state of the row: it makes one
    call without arguments and nothing else.  When the row is never handed
    an [onClick], that call goes to [noop], and an observer sees nothing. *)
Theorem enter_on_link_row_calls_only_noop p c u history event href :
  url (inst_props (after p c u history)) = Some href ->
  key event = "Enter" ->
  selectMode (inst_context (after p c u history)) = false ->
  navigation (log_of (after p c u history) (KeyUp event)) = []
  /\ stateOf (after_step (after p c u history) (KeyUp event)) =
     stateOf (after p c u history)
  /\ (exists f, log_of (after p c u history) (KeyUp event) = [called f []])
  /\ (onClick p = None ->
      forallb without_onClick history = true ->
      log_of (after p c u history) (KeyUp event) = [called noop []]
      /\ filter observable (log_of (after p c u history) (KeyUp event)) = []).
Proof.
  intros _ Hkey Hmode.
  rewrite keyUp_log, Hkey, Hmode. cbn [String.eqb negb andb].
  split; [reflexivity|]. split; [apply keyUp_state|].
  split; [eexists; reflexivity|].
  intros Hp Hall.
  destruct (after_keypress_noop p c u history Hp Hall) as [_ Hnoop].
  rewrite Hnoop. split; reflexivity.
Qed.

Lemma enter_on_link_row_calls_only_noop_witness :
  log_of Scenario.focusedLinkRow (KeyUp Scenario.enter) = [called noop []]
  /\ filter observable (log_of Scenario.focusedLinkRow (KeyUp Scenario.enter)) = [].
Proof.
  apply (enter_on_link_row_calls_only_noop
           (Scenario.row (Some "/a") None None None)
           (Scenario.listContext false None)
           "ResourceListItemCheckbox1" [Attach (Some 0); Focus]
           Scenario.enter "/a"); reflexivity.
Defined.

(** C10.  The claim fails on a row that had an [onClick] and has none
    now.  The row below has a [url] and no [onClick], so [onClick]
    defaults to [noop] in the current render; [handleKeypress], stored
    under [selectMode] alone, still holds the [external 1] of the mount.
    Enter outside selection mode calls it: an effect an observer sees,
    where the claim has only the no-op invoked.  No navigation is asked
    for. *)
Theorem enter_on_row_that_lost_onClick_calls_it :
  url (inst_props Scenario.lostOnClick) = Some "/a"
  /\ onClick (inst_props Scenario.lostOnClick) = None
  /\ current_onClick Scenario.lostOnClick = noop
  /\ selectMode (inst_context Scenario.lostOnClick) = false
  /\ log_of Scenario.lostOnClick (KeyUp Scenario.enter) =
     [called (external 1) []]
  /\ filter observable (log_of Scenario.lostOnClick (KeyUp Scenario.enter)) =
     [called (external 1) []]
  /\ navigation (log_of Scenario.lostOnClick (KeyUp Scenario.enter)) = [].
Proof. repeat split. Qed.

(** ** Action disclosure *)

(** C9.  [actionsMenuVisible] is false at mount; one toggle makes it true;
    a second toggle, or a close request, makes it false again.  In any
    state a toggle negates it, two toggles give the state back, and a close
    request leaves it false.  The props, [persistActions] among them, are
    arbitrary throughout. *)
Theorem disclosure_toggles_and_closes p c u history :
  actionsMenuVisible (stateOf (mount p c u)) = false
  /\ actionsMenuVisible (stateOf (after p c u [ActionsClick])) = true
  /\ actionsMenuVisible (stateOf (after p c u [ActionsClick; ActionsClick])) = false
  /\ actionsMenuVisible (stateOf (after p c u [ActionsClick; CloseRequest])) = false
  /\ actionsMenuVisible (stateOf (after_step (after p c u history) ActionsClick)) =
     negb (actionsMenuVisible (stateOf (after p c u history)))
  /\ stateOf (after_step (after_step (after p c u history) ActionsClick)
                ActionsClick) =
     stateOf (after p c u history)
  /\ actionsMenuVisible (stateOf (after_step (after p c u history) CloseRequest)) =
     false.
Proof.
  remember (after p c u history) as i eqn:Ei.
  assert (Htoggle : forall j,
             stateOf (after_step j ActionsClick) =
             {| actionsMenuVisible := negb (actionsMenuVisible (stateOf j));
                focus := focus (stateOf j) |}).
  { intro j.
    destruct (step_state_dispatch j handleActionsClick ActionsClick eq_refl)
      as [Hstate _].
    rewrite Hstate. reflexivity. }
  do 4 (split; [reflexivity|]).
  split; [|split].
  - rewrite Htoggle. reflexivity.
  - rewrite !Htoggle. cbn [actionsMenuVisible focus].
    rewrite negb_involutive. destruct (stateOf i). reflexivity.
  - destruct (step_state_dispatch i handleCloseRequest CloseRequest eq_refl)
      as [Hstate _].
    rewrite Hstate. reflexivity.
Qed.

(** C5 as stated fails: an empty array is truthy, so a row with
    [shortcutActions = []] that is not loading renders the [Actions]
    wrapper, and the [Disclosure] one as well under [persistActions]. *)
Lemma empty_shortcutActions_render_markup :
  shortcutActions Scenario.emptyActionsRow = Some []
  /\ loading (Scenario.listContext false None) = false
  /\ renderedActions
       (inst_output
          (mount Scenario.emptyActionsRow (Scenario.listContext false None)
             "ResourceListItemCheckbox1")) <> null
  /\ renderedDisclosure
       (inst_output
          (mount Scenario.emptyActionsRow (Scenario.listContext false None)
             "ResourceListItemCheckbox1")) <> null.
Proof. repeat split; discriminate. Qed.

(** C5, amended.  When [shortcutActions] is absent, or [loading] is true,
    the returned element has [null] in the place of [actionsMarkup] and in
    the place of [disclosureMarkup], whatever [actionsMenuVisible] is. *)
Theorem no_actions_when_absent_or_loading p c u history :
  shortcutActions (inst_props (after p c u history)) = None \/
  loading (inst_context (after p c u history)) = true ->
  renderedActions (inst_output (after p c u history)) = null
  /\ renderedDisclosure (inst_output (after p c u history)) = null.
Proof.
  intro H. destruct (after_output_current p c u history) as [Ha Hd].
  rewrite Ha, Hd. unfold actionsMarkup, disclosureMarkup.
  destruct H as [H | H]; rewrite H.
  - split; reflexivity.
  - destruct (shortcutActions _); split; reflexivity.
Qed.

Lemma no_actions_when_absent_or_loading_witness :
  renderedActions
    (inst_output
       (after (Scenario.row (Some "/a") None None (Some true))
          (Scenario.listContext false None) "ResourceListItemCheckbox1"
          [Attach (Some 0); ActionsClick])) = null
  /\ renderedDisclosure
       (inst_output
          (after (Scenario.row (Some "/a") None None (Some true))
             (Scenario.listContext false None) "ResourceListItemCheckbox1"
             [Attach (Some 0); ActionsClick])) = null.
Proof.
  apply (no_actions_when_absent_or_loading
           (Scenario.row (Some "/a") None None (Some true))
           (Scenario.listContext false None) "ResourceListItemCheckbox1"
           [Attach (Some 0); ActionsClick]).
  left. reflexivity.
Defined.

End ItemSpec.

(** * Further properties of the list item *)

Module ItemExtra.

Import JS React Item ItemView JSFacts ReactFacts ItemFacts.

(** ** A render with nothing new *)

Lemma useCallback_again {C : Type} (prev : option (Memo C)) (fn fn' : C) d :
  useCallback (Some (useCallback prev fn d)) fn' d = useCallback prev fn d.
Proof.
  unfold useCallback at 1. rewrite useCallback_deps.
  replace (areHookInputsEqual d d) with true; [reflexivity|].
  symmetry. now apply areHookInputsEqual_eq.
Qed.

Lemma render_idempotent p c u prev :
  update (render p c u prev) p c = render p c u prev.
Proof.
  unfold update, render, Item.
  cbn -[useCallback isSelected classNames actionsMarkup disclosureMarkup].
  rewrite !useCallback_again. destruct prev; reflexivity.
Qed.

Lemma render_keeps_attached_node p c u h n :
  render p c u
    (Some {| state := state h; node := n; checkboxId := checkboxId h;
             handleBlur_cell := handleBlur_cell h;
             handleLargerSelectionArea_cell := handleLargerSelectionArea_cell h;
             handleSelection_cell := handleSelection_cell h;
             handleClick_cell := handleClick_cell h;
             handleKeypress_cell := handleKeypress_cell h |}) =
  attach (render p c u (Some h)) n.
Proof. reflexivity. Qed.

Lemma step_settled i s : Settled i -> Settled (after_step i s).
Proof.
  unfold Settled, after_step. intro Hi.
  assert (Hd : forall handler,
             update (fst (dispatch i handler))
               (inst_props (fst (dispatch i handler)))
               (inst_context (fst (dispatch i handler))) =
             fst (dispatch i handler)).
  { intro handler. unfold dispatch.
    destruct (run handler (state (inst_hooks i))) as [s' log]. cbn [fst].
    unfold update at 2 3 4. cbn [inst_props inst_context inst_hooks].
    unfold update at 2. cbn [inst_props inst_context inst_hooks].
    apply render_idempotent. }
  destruct s; unfold step; try apply Hd; cbn [fst].
  - unfold update at 2 3 4. apply render_idempotent.
  - unfold update, attach. cbn [inst_props inst_context inst_hooks checkboxId].
    rewrite render_keeps_attached_node.
    unfold update in Hi. rewrite Hi. reflexivity.
Qed.

Lemma after_settled p c u history : Settled (after p c u history).
Proof.
  apply (after_invariant Settled); [apply step_settled|].
  apply render_idempotent.
Qed.

(** A handler that leaves the state alone leaves the whole row alone. *)
Lemma dispatch_unchanged i handler :
  Settled i ->
  fst (run handler (stateOf i)) = stateOf i ->
  fst (dispatch i handler) = i.
Proof.
  unfold Settled, dispatch, stateOf. intros Hi Hs.
  destruct (run handler (state (inst_hooks i))) as [s' log].
  cbn [fst] in *. subst s'.
  destruct i as [pi ci hi oi]. destruct hi. exact Hi.
Qed.

Lemma useCallback_same {C : Type} (m : Memo C) (fn : C) d :
  deps m = d -> useCallback (Some m) fn d = m.
Proof.
  intro H. unfold useCallback. rewrite H.
  replace (areHookInputsEqual d d) with true; [reflexivity|].
  symmetry. now apply areHookInputsEqual_eq.
Qed.

Lemma useCallback_changed {C : Type} (m : Memo C) (fn : C) d :
  deps m <> d -> useCallback (Some m) fn d = mkMemo fn d.
Proof.
  intro H. unfold useCallback.
  destruct (areHookInputsEqual d (deps m)) eqn:E; [|reflexivity].
  apply areHookInputsEqual_eq in E. congruence.
Qed.

(** ** What a render does to the stored handlers *)

Section Renders.

Variables (p : Props) (c : ResourceListContextType) (u : string)
  (history : list Step).
Variables (p' : Props) (c' : ResourceListContextType).

Local Abbreviation row := (after p c u history).
Local Abbreviation row' := (after_step (after p c u history) (Render p' c')).

(** X2.  A render keeps a stored handler when what the handler is stored
    under did not move: [handleSelection] under [id] and
    [onSelectionChange], [handleLargerSelectionArea] under [selected],
    [handleClick] under [selectMode], [onClick] and [url],
    [handleKeypress] under [selectMode], and [handleBlur] always. *)
Theorem unchanged_dependencies_keep_handlers :
  (id p' = id (inst_props row) ->
   onSelectionChange c' = onSelectionChange (inst_context row) ->
   handleSelection_cell (inst_hooks row') = handleSelection_cell (inst_hooks row))
  /\ (isSelected (id p') (selectedItems c') = current_selected row ->
      handleLargerSelectionArea_cell (inst_hooks row') =
      handleLargerSelectionArea_cell (inst_hooks row))
  /\ (selectMode c' = selectMode (inst_context row) ->
      match onClick p' with Some f => f | None => noop end = current_onClick row ->
      url p' = url (inst_props row) ->
      handleClick_cell (inst_hooks row') = handleClick_cell (inst_hooks row))
  /\ (selectMode c' = selectMode (inst_context row) ->
      handleKeypress_cell (inst_hooks row') = handleKeypress_cell (inst_hooks row))
  /\ handleBlur_cell (inst_hooks row') = handleBlur_cell (inst_hooks row).
Proof.
  pose proof (after_current p c u history) as Hcur.
  pose proof (after_blur_cell p c u history) as Hblur.
  pose proof (step_blur_cell _ _ (Render p' c') Hblur) as Hblur'.
  unfold BlurCell in *.
  remember (after p c u history) as i eqn:Ei.
  unfold after_step, step, update in *. cbn [fst] in *.
  repeat split.
  - intros Hid Hosc. cbn -[useCallback].
    apply useCallback_same. rewrite (cur_sel_deps Hcur). congruence.
  - intros Hsel. cbn -[useCallback isSelected].
    apply useCallback_same. rewrite (cur_lsa_deps Hcur).
    unfold current_selected in Hsel. congruence.
  - intros Hmode Hoc Hurl. cbn -[useCallback isSelected].
    apply useCallback_same. rewrite (cur_clk_deps Hcur).
    unfold current_onClick in Hoc. congruence.
  - intros Hmode. cbn -[useCallback].
    apply useCallback_same. rewrite (cur_key_deps Hcur). congruence.
  - congruence.
Qed.

(** X3.  A render that changes [selectMode], [onClick] or [url] stores a
    new [handleClick], which holds the [id] and the
    [handleLargerSelectionArea] of that render; so when the render turns
    selection mode on, a click on the row does what a click on the larger
    selection area does. *)
Theorem changed_dependency_renews_handleClick :
  selectMode c' <> selectMode (inst_context row) \/
  match onClick p' with Some f => f | None => noop end <> current_onClick row \/
  url p' <> url (inst_props row) ->
  callback (handleClick_cell (inst_hooks row')) =
    {| clk_selectMode := selectMode c';
       clk_onClick := match onClick p' with Some f => f | None => noop end;
       clk_url := url p';
       clk_id := id p';
       clk_handleLargerSelectionArea :=
         callback (handleLargerSelectionArea_cell (inst_hooks row')) |}
  /\ (selectMode c' = true ->
      forall doc event,
        log_of row' (Click doc event) = log_of row' LargerSelectionAreaClick).
Proof.
  intro Hchanged.
  pose proof (after_current p c u history) as Hcur.
  remember (after p c u history) as i eqn:Ei.
  assert (Hcell :
            callback (handleClick_cell (inst_hooks (after_step i (Render p' c')))) =
            {| clk_selectMode := selectMode c';
               clk_onClick := match onClick p' with Some f => f | None => noop end;
               clk_url := url p';
               clk_id := id p';
               clk_handleLargerSelectionArea :=
                 callback (handleLargerSelectionArea_cell
                             (inst_hooks (after_step i (Render p' c')))) |}).
  { unfold after_step, step, update. cbn -[useCallback isSelected].
    rewrite (useCallback_changed (handleClick_cell (inst_hooks i))); [reflexivity|].
    rewrite (cur_clk_deps Hcur). unfold current_onClick in Hchanged.
    intro Heq. injection Heq as Hm Ho Hu. apply of_string_inj in Hu.
    destruct Hchanged as [H | [H | H]]; apply H; congruence. }
  split; [exact Hcell|].
  intros Hmode doc event.
  destruct (step_state_dispatch (after_step i (Render p' c'))
              (click (after_step i (Render p' c')) doc event)
              (Click doc event) eq_refl) as [_ Hlog].
  destruct (step_state_dispatch (after_step i (Render p' c'))
              (largerSelectionAreaClick (after_step i (Render p' c')))
              LargerSelectionAreaClick eq_refl) as [_ Hlog'].
  rewrite Hlog, Hlog'. unfold click, largerSelectionAreaClick, handleClick.
  rewrite Hcell. cbn [clk_selectMode clk_handleLargerSelectionArea].
  rewrite Hmode. reflexivity.
Qed.

End Renders.

Lemma unchanged_dependencies_keep_handlers_witness :
  handleClick_cell (inst_hooks Scenario.selectedSinceMount) =
  handleClick_cell
    (inst_hooks
       (after (Scenario.row (Some "/a") None None None)
          (Scenario.listContext true (Some (Items [])))
          "ResourceListItemCheckbox1" [Attach (Some 0)])).
Proof.
  apply (proj1 (proj2 (proj2
           (unchanged_dependencies_keep_handlers
              (Scenario.row (Some "/a") None None None)
              (Scenario.listContext true (Some (Items [])))
              "ResourceListItemCheckbox1" [Attach (Some 0)]
              (Scenario.row (Some "/a") None None None)
              (Scenario.listContext true (Some (Items ["a"])))))));
    reflexivity.
Defined.

Lemma changed_dependency_renews_handleClick_witness :
  log_of
    (after_step
       (after (Scenario.row (Some "/a") None None None) Scenario.bareContext
          "ResourceListItemCheckbox1" [Attach (Some 0)])
       (Render (Scenario.row (Some "/a") None None None)
          (Scenario.listContext true (Some (Items ["a"])))))
    (Click Scenario.page Scenario.plainClick) =
  log_of
    (after_step
       (after (Scenario.row (Some "/a") None None None) Scenario.bareContext
          "ResourceListItemCheckbox1" [Attach (Some 0)])
       (Render (Scenario.row (Some "/a") None None None)
          (Scenario.listContext true (Some (Items ["a"])))))
    LargerSelectionAreaClick.
Proof.
  assert (Hmode : selectMode (Scenario.listContext true (Some (Items ["a"]))) <>
                  selectMode
                    (inst_context
                       (after (Scenario.row (Some "/a") None None None)
                          Scenario.bareContext "ResourceListItemCheckbox1"
                          [Attach (Some 0)]))).
  { discriminate. }
  destruct (changed_dependency_renews_handleClick
              (Scenario.row (Some "/a") None None None) Scenario.bareContext
              "ResourceListItemCheckbox1" [Attach (Some 0)]
              (Scenario.row (Some "/a") None None None)
              (Scenario.listContext true (Some (Items ["a"])))
              (or_introl Hmode)) as [_ W].
  exact (W eq_refl Scenario.page Scenario.plainClick).
Defined.

(** ** What the handlers do and leave alone *)

(** Case analysis on every test a handler makes. *)
Ltac handler_cases :=
  repeat match goal with
         | |- context [if ?b then _ else _] => destruct b eqn:?
         | |- context [match ?x with Some _ => _ | None => _ end] =>
             destruct x eqn:?
         end.

Lemma handleSelection_keeps_menu cl value s :
  actionsMenuVisible (fst (run (handleSelection cl value) s)) =
  actionsMenuVisible s.
Proof. unfold handleSelection. handler_cases; reflexivity. Qed.

Lemma handleLargerSelectionArea_keeps_menu cl s :
  actionsMenuVisible (fst (run (handleLargerSelectionArea cl) s)) =
  actionsMenuVisible s.
Proof.
  unfold handleLargerSelectionArea, handleSelection. handler_cases; reflexivity.
Qed.

Lemma handleClick_keeps_menu cl n doc event s :
  actionsMenuVisible (fst (run (handleClick cl n doc event) s)) =
  actionsMenuVisible s.
Proof.
  unfold handleClick, handleLargerSelectionArea, handleSelection, when.
  handler_cases; reflexivity.
Qed.


Lemma handleBlur_keeps_menu cl n doc event s :
  actionsMenuVisible (fst (run (handleBlur cl n doc event) s)) =
  actionsMenuVisible s.
Proof. unfold handleBlur. handler_cases; reflexivity. Qed.

Lemma handleKeypress_keeps_state cl event s :
  fst (run (handleKeypress cl event) s) = s.
Proof.
  unfold handleKeypress, when. handler_cases; destruct s as [m [f fi]];
    reflexivity.
Qed.

Lemma option_eqb_string a b : option_eqb String.eqb a b = true -> a = b.
Proof.
  destruct a, b; simpl; try discriminate; [|reflexivity].
  intro H. apply String.eqb_eq in H. now subst.
Qed.

Lemma option_eqb_Fn a b : option_eqb Fn_eqb a b = true -> a = b.
Proof.
  destruct a, b; simpl; try discriminate; [|reflexivity].
  intro H. apply Fn_eqb_eq in H. now subst.
Qed.

Lemma update_wired p c h p' c' uid :
  id p' = id p ->
  onSelectionChange c' = onSelectionChange c ->
  callback (handleSelection_cell h) =
    {| sel_id := id p; sel_onSelectionChange := onSelectionChange c |} ->
  lsa_handleSelection (callback (handleLargerSelectionArea_cell h)) =
    {| sel_id := id p; sel_onSelectionChange := onSelectionChange c |} ->
  Wired p c (render p' c' uid (Some h)).
Proof.
  intros Hid Hosc Hsel Hheld.
  assert (Hsel' :
            callback (handleSelection_cell (inst_hooks (render p' c' uid (Some h)))) =
            {| sel_id := id p; sel_onSelectionChange := onSelectionChange c |}).
  { cbn -[useCallback].
    destruct (useCallback_cases (Some (handleSelection_cell h))
                {| sel_id := id p';
                   sel_onSelectionChange := onSelectionChange c' |}
                [of_string (id p'); of_fn (onSelectionChange c')])
      as [E | [m [Hprev [_ E]]]]; rewrite E.
    - cbn. now rewrite Hid, Hosc.
    - injection Hprev as <-. exact Hsel. }
  repeat split; try assumption.
  change (lsa_handleSelection
            (callback
               (useCallback (Some (handleLargerSelectionArea_cell h))
                  {| lsa_selected := isSelected (id p') (selectedItems c');
                     lsa_handleSelection :=
                       callback
                         (handleSelection_cell
                            (inst_hooks (render p' c' uid (Some h)))) |}
                  [isSelected (id p') (selectedItems c')])) =
          {| sel_id := id p; sel_onSelectionChange := onSelectionChange c |}).
  destruct (useCallback_cases (Some (handleLargerSelectionArea_cell h))
              {| lsa_selected := isSelected (id p') (selectedItems c');
                 lsa_handleSelection :=
                   callback
                     (handleSelection_cell
                        (inst_hooks (render p' c' uid (Some h)))) |}
              [isSelected (id p') (selectedItems c')])
    as [E | [m [Hprev [_ E]]]]; rewrite E.
  - exact Hsel'.
  - injection Hprev as <-. exact Hheld.
Qed.

Lemma step_wired p c i s :
  keeps_wiring p c s = true -> Wired p c i -> Wired p c (after_step i s).
Proof.
  intros Hs [Hid [Hosc [Hsel Hheld]]]. unfold after_step.
  assert (Hd : forall handler, Wired p c (fst (dispatch i handler))).
  { intro handler. unfold dispatch.
    destruct (run handler (state (inst_hooks i))) as [s' log]. cbn [fst].
    unfold update. now apply update_wired. }
  destruct s; unfold step; try apply Hd; cbn [fst].
  - cbn in Hs. apply andb_true_iff in Hs as [H1 H2].
    apply option_eqb_string in H1. apply option_eqb_Fn in H2.
    unfold update. now apply update_wired.
  - repeat split; assumption.
Qed.

Lemma after_wired p c u history :
  forallb (keeps_wiring p c) history = true -> Wired p c (after p c u history).
Proof.
  intro Hall. unfold after.
  apply (steps_invariant (keeps_wiring p c) (Wired p c));
    [apply step_wired | exact Hall |].
  repeat split.
Qed.

Section Handlers.

Variables (p : Props) (c : ResourceListContextType) (u : string)
  (history : list Step).

Local Abbreviation row := (after p c u history).

(** X4.  A click on the larger selection area stops propagation and then
    runs the [handleSelection] it holds on the negation of the selection
    state of the current render, whatever renders came before.  On a row
    whose [id] and [onSelectionChange] are those of the mount throughout,
    this is one call of [onSelectionChange], with that negation and the
    id. *)
Theorem largerSelectionArea_toggles_current_selection :
  log_of row LargerSelectionAreaClick =
    propagation_stopped ::
    snd (run (handleSelection
                (lsa_handleSelection
                   (callback (handleLargerSelectionArea_cell (inst_hooks row))))
                (negb (truthy (current_selected row))))
           (stateOf row))
  /\ (forall rowId f,
        id p = Some rowId ->
        onSelectionChange c = Some f ->
        forallb (keeps_wiring p c) history = true ->
        log_of row LargerSelectionAreaClick =
        [propagation_stopped;
         called f [boolean (negb (truthy (current_selected row))); str rowId]]).
Proof.
  pose proof (after_current p c u history) as Hcur.
  assert (Hlog : log_of (after p c u history) LargerSelectionAreaClick =
                 propagation_stopped ::
                 snd (run (handleSelection
                             (lsa_handleSelection
                                (callback
                                   (handleLargerSelectionArea_cell
                                      (inst_hooks (after p c u history)))))
                             (negb (truthy
                                      (current_selected (after p c u history)))))
                        (stateOf (after p c u history)))).
  { remember (after p c u history) as i eqn:Ei.
    destruct (step_state_dispatch i (largerSelectionAreaClick i)
                LargerSelectionAreaClick eq_refl) as [_ Hlog].
    rewrite Hlog.
    unfold largerSelectionAreaClick, handleLargerSelectionArea, current_selected.
    rewrite (cur_lsa Hcur). unfold handleSelection.
    destruct (sel_id _); [destruct (sel_onSelectionChange _)|]; reflexivity. }
  split; [exact Hlog|].
  intros rowId f Hid Hosc Hall.
  destruct (after_wired p c u history Hall) as [_ [_ [_ Hheld]]].
  rewrite Hlog, Hheld. unfold handleSelection.
  cbn [sel_id sel_onSelectionChange]. rewrite Hid, Hosc. reflexivity.
Qed.

(** X5.  In selection mode a click on the row never navigates and never
    reaches [onClick]: it stops propagation, makes at most one call, with
    a boolean and an id as the two arguments of [onSelectionChange], and
    leaves the disclosure as it is. *)
Theorem click_in_selectMode_only_selects doc event :
  selectMode (inst_context row) = true ->
  navigation (log_of row (Click doc event)) = []
  /\ actionsMenuVisible (stateOf (after_step row (Click doc event))) =
     actionsMenuVisible (stateOf row)
  /\ exists rest,
       log_of row (Click doc event) = propagation_stopped :: rest
       /\ (rest = [] \/
           exists f value rowId, rest = [called f [boolean value; str rowId]]).
Proof.
  intro Hmode.
  pose proof (after_current p c u history) as Hcur.
  remember (after p c u history) as i eqn:Ei.
  destruct (step_state_dispatch i (click i doc event) (Click doc event) eq_refl)
    as [Hstate Hlog].
  rewrite Hstate, Hlog. unfold click.
  split; [|split; [apply handleClick_keeps_menu|]];
    unfold handleClick; rewrite (cur_clk_selectMode Hcur), Hmode;
    unfold handleLargerSelectionArea, handleSelection;
    destruct (sel_id _) as [rowId|];
    [destruct (sel_onSelectionChange _) as [f|]| | destruct (sel_onSelectionChange _) as [f|]|];
    try reflexivity;
    eexists; (split; [reflexivity|]);
    solve [left; reflexivity | right; do 3 eexists; reflexivity].
Qed.

(** X6.  Outside selection mode a click whose target is the embedded
    anchor is left to the browser: the handler does nothing, and the row
    is as it was. *)
Theorem click_on_anchor_is_left_alone doc event :
  selectMode (inst_context row) = false ->
  anchorIsTarget (embeddedAnchor (node (inst_hooks row)) doc) event = true ->
  log_of row (Click doc event) = []
  /\ after_step row (Click doc event) = row.
Proof.
  intros Hmode Htarget.
  pose proof (after_current p c u history) as Hcur.
  pose proof (after_settled p c u history) as Hset.
  remember (after p c u history) as i eqn:Ei.
  assert (Hrun : run (click i doc event) (stateOf i) = (stateOf i, [])).
  { unfold click, handleClick.
    rewrite (cur_clk_selectMode Hcur), Hmode, Htarget. reflexivity. }
  split.
  - unfold log_of, step. rewrite dispatch_log, Hrun. reflexivity.
  - unfold after_step, step. apply dispatch_unchanged; [exact Hset|].
    now rewrite Hrun.
Qed.


(** X8.  A row whose [url] is absent or empty never navigates on a
    click, in selection mode or out of it. *)
Theorem click_without_url_never_navigates doc event :
  truthy (of_string (url (inst_props row))) = false ->
  navigation (log_of row (Click doc event)) = [].
Proof.
  intro Hurl.
  pose proof (after_current p c u history) as Hcur.
  remember (after p c u history) as i eqn:Ei.
  unfold log_of, step. rewrite dispatch_log.
  unfold click, handleClick, handleLargerSelectionArea, handleSelection, when.
  rewrite (cur_clk_url Hcur), Hurl. cbn [andb].
  handler_cases; reflexivity.
Qed.

(** X9.  A key other than Enter, and any key in selection mode, does
    nothing: no call is made and the row is as it was. *)
Theorem keyUp_is_ignored event :
  key event <> "Enter" \/ selectMode (inst_context row) = true ->
  log_of row (KeyUp event) = []
  /\ after_step row (KeyUp event) = row.
Proof.
  intro Hcase.
  pose proof (after_current p c u history) as Hcur.
  pose proof (after_settled p c u history) as Hset.
  remember (after p c u history) as i eqn:Ei.
  split.
  - unfold log_of, step. rewrite dispatch_log.
    unfold keyUp, handleKeypress, when. rewrite (cur_key Hcur).
    destruct Hcase as [Hkey | Hmode].
    + destruct (String.eqb_spec (key event) "Enter"); [contradiction|].
      reflexivity.
    + rewrite Hmode, andb_false_r. reflexivity.
  - unfold after_step, step. apply dispatch_unchanged; [exact Hset|].
    apply handleKeypress_keeps_state.
Qed.

End Handlers.

(** ** The two state cells *)

Section StateCells.

Variables (p : Props) (c : ResourceListContextType) (u : string)
  (history : list Step).

Local Abbreviation row := (after p c u history).

(** The state after a step and its log, by the handler the step runs. *)
Lemma step_run (i : Instance) (s : Step) :
  exists handler,
    stateOf (after_step i s) = fst (run handler (stateOf i))
    /\ log_of i s = snd (run handler (stateOf i))
    /\ match s with
       | Render _ _ | Attach _ => handler = ret tt
       | AnchorFocus => handler = handleAnchorFocus
       | FocusedBlur => handler = handleFocusedBlur
       | Focus => handler = handleFocus
       | MouseDown => handler = handleMouseDown
       | ActionsClick => handler = handleActionsClick
       | CloseRequest => handler = handleCloseRequest
       | Blur doc event => handler = blur i doc event
       | CheckboxChange v => handler = select i v
       | LargerSelectionAreaClick => handler = largerSelectionAreaClick i
       | Click doc event => handler = click i doc event
       | KeyUp event => handler = keyUp i event
       end.
Proof.
  destruct s;
    match goal with
    | |- exists handler, _ /\ _ /\ handler = ?h => exists h
    end;
    (split; [|split; [|reflexivity]]);
    try match goal with
        | |- stateOf (after_step i ?s) = fst (run ?h _) =>
            apply (proj1 (step_state_dispatch i h s eq_refl))
        | |- log_of i ?s = snd (run ?h _) =>
            apply (proj2 (step_state_dispatch i h s eq_refl))
        end;
    reflexivity.
Qed.

(** X10.  The disclosure and the focus flags do not touch each other:
    only [handleActionsClick] and [handleCloseRequest] can change
    [actionsMenuVisible], and these two change nothing else and make no
    call. *)
Theorem disclosure_and_focus_are_independent (s : Step) :
  (is_disclosure_step s = false ->
   actionsMenuVisible (stateOf (after_step row s)) =
   actionsMenuVisible (stateOf row))
  /\ (is_disclosure_step s = true ->
      focus (stateOf (after_step row s)) = focus (stateOf row)
      /\ log_of row s = []).
Proof.
  remember (after p c u history) as i eqn:Ei.
  destruct (step_run i s) as [handler [Hstate [Hlog Hh]]].
  rewrite Hstate, Hlog.
  destruct s; subst handler; split; try discriminate; intros _;
    unfold blur, select, largerSelectionAreaClick, click, keyUp;
    first [ reflexivity
          | split; reflexivity
          | apply handleBlur_keeps_menu
          | apply handleSelection_keeps_menu
          | apply handleLargerSelectionArea_keeps_menu
          | apply handleClick_keeps_menu
          | now rewrite handleKeypress_keeps_state ].
Qed.

(** X11.  Once [focusedInner] is set, only a focus of the link or button
    itself ([handleAnchorFocus]) clears it. *)
Theorem focusedInner_is_cleared_only_by_anchor_focus (s : Step) :
  s <> AnchorFocus ->
  focusedInner (focus (stateOf row)) = true ->
  focusedInner (focus (stateOf (after_step row s))) = true.
Proof.
  intros Hs Hinner.
  remember (after p c u history) as i eqn:Ei.
  destruct (step_run i s) as [handler [Hstate [_ Hh]]].
  rewrite Hstate.
  destruct s; subst handler; try congruence; try exact Hinner;
    unfold blur, select, largerSelectionAreaClick, click, keyUp, handleBlur,
      handleClick, handleLargerSelectionArea, handleSelection, handleKeypress,
      when;
    handler_cases; try reflexivity; exact Hinner.
Qed.

(** X12.  [focused] is cleared by one thing only: a blur whose
    [relatedTarget] is outside the row, or that arrives while no root node
    is attached. *)
Theorem focused_is_cleared_only_by_leaving_blur (s : Step) :
  focused (focus (stateOf row)) = true ->
  focused (focus (stateOf (after_step row s))) = false ->
  exists doc event,
    s = Blur doc event
    /\ focusLeftSubtree (node (inst_hooks row)) doc event = true.
Proof.
  intros Hbefore Hafter.
  remember (after p c u history) as i eqn:Ei.
  destruct (step_run i s) as [handler [Hstate [_ Hh]]].
  rewrite Hstate in Hafter.
  destruct s; subst handler;
    try (exfalso; revert Hafter;
         unfold select, largerSelectionAreaClick, click, keyUp, handleClick,
           handleLargerSelectionArea, handleSelection, handleKeypress, when;
         handler_cases; cbn; congruence).
  exists doc, event. split; [reflexivity|].
  unfold blur, handleBlur in Hafter.
  destruct (focusLeftSubtree (node (inst_hooks i)) doc event); [reflexivity|].
  destruct (compareEventNode _ _ _ _); cbn in Hafter; congruence.
Qed.

(** X13.  Only the checkbox, the larger selection area, a click on the
    row and a key can reach a callback, the window or the event: renders,
    focus and blur handlers, the mouse-down handler and the disclosure
    handlers make no call at all. *)
Theorem inward_steps_make_no_call (s : Step) :
  is_outward_step s = false -> log_of row s = [].
Proof.
  intro Hs. remember (after p c u history) as i eqn:Ei.
  destruct (step_run i s) as [handler [_ [Hlog Hh]]].
  rewrite Hlog.
  destruct s; subst handler; try discriminate; try reflexivity.
  unfold blur, handleBlur. handler_cases; reflexivity.
Qed.

End StateCells.

(** ** The element a row shows *)

(** Whatever holds of every render holds of every row, since a row is
    the render of what it has. *)
Lemma every_row_is_a_render (P : Instance -> Prop) :
  (forall p c u prev, P (render p c u prev)) ->
  forall p c u history, P (after p c u history).
Proof.
  intros H p c u history.
  eapply eq_ind; [|exact (after_settled p c u history)].
  unfold update. apply H.
Qed.

Lemma step_checkboxId i s :
  checkboxId (inst_hooks (after_step i s)) = checkboxId (inst_hooks i).
Proof.
  unfold after_step.
  assert (Hd : forall handler,
             checkboxId (inst_hooks (fst (dispatch i handler))) =
             checkboxId (inst_hooks i)).
  { intro handler. unfold dispatch.
    destruct (run handler (state (inst_hooks i))). reflexivity. }
  destruct s; unfold step; try apply Hd; reflexivity.
Qed.

(** X17.  Every render asks [getUniqueCheckboxID] for an id and gets
    another one, yet the row keeps the id of its mount: after any history
    the stored id is the first one, and a selectable row shows its
    checkbox under that id.  The same holds for one more render, whatever
    id that render obtains. *)
Theorem checkbox_keeps_the_id_of_the_mount p c u history :
  checkboxId (inst_hooks (after p c u history)) = u
  /\ (selectable (inst_context (after p c u history)) = true ->
      attr "id" (checkboxOf (inst_output (after p c u history))) =
      Some (value (str u)))
  /\ (forall p' c' obtained,
        let again :=
          render p' c' obtained (Some (inst_hooks (after p c u history))) in
        checkboxId (inst_hooks again) = u
        /\ (selectable c' = true ->
            attr "id" (checkboxOf (inst_output again)) = Some (value (str u)))).
Proof.
  assert (Hid : checkboxId (inst_hooks (after p c u history)) = u).
  { apply (after_invariant (fun i => checkboxId (inst_hooks i) = u));
      [|reflexivity].
    intros i s Hi. now rewrite step_checkboxId. }
  pose (P := fun i =>
               selectable (inst_context i) = true ->
               attr "id" (checkboxOf (inst_output i)) =
               Some (value (str (checkboxId (inst_hooks i))))).
  assert (Hrender : forall p c u prev, P (render p c u prev)).
  { unfold P. clear. intros p c u prev Hsel.
    change (selectable c = true) in Hsel.
    unfold render, Item, checkboxOf, handleMarkupOf, ownedMarkupOf,
      containerMarkupOf.
    cbn -[useCallback isSelected truthy of_string].
    rewrite Hsel, orb_true_r. reflexivity. }
  split; [exact Hid|split].
  - pose proof (every_row_is_a_render P Hrender p c u history) as H.
    unfold P in H. rewrite Hid in H. exact H.
  - intros p' c' obtained again.
    assert (Hkept : checkboxId (inst_hooks again) = u).
    { rewrite <- Hid. reflexivity. }
    split; [exact Hkept|].
    intro Hsel. rewrite <- Hkept. apply (Hrender p' c' obtained). exact Hsel.
Qed.

(** ** Selection, at the edges *)

(** X20.  [selected] is truthy exactly when [selectedItems] is the
    sentinel, or an array that holds the id the row has; a row without an
    id is selected by the sentinel only, and a context without
    [selectedItems] makes [isSelected] return [undefined] rather than
    [false]. *)
Theorem selected_is_truthy_iff (rowId : option string)
    (selectedItems : option ResourceListSelectedItems) :
  (truthy (isSelected rowId selectedItems) = true <->
   selectedItems = Some SELECT_ALL_ITEMS \/
   exists ids r,
     selectedItems = Some (Items ids) /\ rowId = Some r /\ In r ids)
  /\ isSelected rowId None = undefined
  /\ (forall ids, isSelected None (Some (Items ids)) = boolean false).
Proof.
  split; [|split; reflexivity].
  destruct selectedItems as [[ids|]|]; simpl.
  - rewrite orb_false_r. split.
    + intro H. right. destruct rowId as [r|]; [|discriminate].
      exists ids, r. repeat split. now apply includes_In.
    + intros [H | [ids' [r [H [-> Hin]]]]]; [discriminate|].
      injection H as <-. now apply includes_In.
  - split; [now left | reflexivity].
  - split; [discriminate|].
    intros [H | [ids [r [H _]]]]; discriminate.
Qed.

(** ** Concrete runs *)

Lemma largerSelectionArea_toggles_current_selection_witness :
  log_of Scenario.selectedSinceMount LargerSelectionAreaClick =
  [propagation_stopped;
   called (external 7)
     [boolean (negb (truthy (current_selected Scenario.selectedSinceMount)));
      str "a"]].
Proof.
  destruct (largerSelectionArea_toggles_current_selection
              (Scenario.row (Some "/a") None None None)
              (Scenario.listContext true (Some (Items [])))
              "ResourceListItemCheckbox1"
              [Attach (Some 0);
               Render (Scenario.row (Some "/a") None None None)
                 (Scenario.listContext true (Some (Items ["a"])))])
    as [_ H].
  exact (H "a" (external 7) eq_refl eq_refl eq_refl).
Defined.

Lemma checkbox_keeps_the_id_of_the_mount_witness :
  attr "id" (checkboxOf (inst_output Scenario.selectedSinceMount)) =
  Some (value (str "ResourceListItemCheckbox1")).
Proof.
  destruct (checkbox_keeps_the_id_of_the_mount
              (Scenario.row (Some "/a") None None None)
              (Scenario.listContext true (Some (Items [])))
              "ResourceListItemCheckbox1"
              [Attach (Some 0);
               Render (Scenario.row (Some "/a") None None None)
                 (Scenario.listContext true (Some (Items ["a"])))])
    as [_ [H _]].
  exact (H eq_refl).
Defined.

Lemma click_in_selectMode_only_selects_witness :
  navigation (log_of Scenario.selectedSinceMount
                (Click Scenario.page Scenario.plainClick)) = [].
Proof.
  exact (proj1
           (click_in_selectMode_only_selects
              (Scenario.row (Some "/a") None None None)
              (Scenario.listContext true (Some (Items [])))
              "ResourceListItemCheckbox1"
              [Attach (Some 0);
               Render (Scenario.row (Some "/a") None None None)
                 (Scenario.listContext true (Some (Items ["a"])))]
              Scenario.page Scenario.plainClick eq_refl)).
Defined.

Lemma click_on_anchor_is_left_alone_witness :
  log_of Scenario.untrackedRow
    (Click Scenario.page {| target := 1; ctrlKey := false; metaKey := false |}) =
  [].
Proof.
  exact (proj1
           (click_on_anchor_is_left_alone
              (Scenario.row (Some "/a") None None None) Scenario.bareContext
              "ResourceListItemCheckbox1" [Attach (Some 0)]
              Scenario.page {| target := 1; ctrlKey := false; metaKey := false |}
              eq_refl eq_refl)).
Defined.

Lemma click_without_url_never_navigates_witness :
  navigation
    (log_of Scenario.handlerReplaced (Click Scenario.page Scenario.ctrlClick)) = [].
Proof.
  exact (click_without_url_never_navigates
           (Scenario.row None (Some (external 1)) None None)
           (Scenario.listContext false None)
           "ResourceListItemCheckbox1"
           [Attach (Some 0);
            Render (Scenario.row None (Some (external 2)) None None)
              (Scenario.listContext false None)]
           Scenario.page Scenario.ctrlClick eq_refl).
Defined.

Lemma keyUp_is_ignored_witness :
  log_of Scenario.untrackedRow (KeyUp {| key := "Escape" |}) = []
  /\ log_of Scenario.selectedSinceMount (KeyUp Scenario.enter) = [].
Proof.
  assert (Hkey : key {| key := "Escape" |} <> "Enter") by discriminate.
  split.
  - destruct (keyUp_is_ignored
                (Scenario.row (Some "/a") None None None) Scenario.bareContext
                "ResourceListItemCheckbox1" [Attach (Some 0)]
                {| key := "Escape" |} (or_introl Hkey)) as [Hlog _].
    exact Hlog.
  - destruct (keyUp_is_ignored
                (Scenario.row (Some "/a") None None None)
                (Scenario.listContext true (Some (Items [])))
                "ResourceListItemCheckbox1"
                [Attach (Some 0);
                 Render (Scenario.row (Some "/a") None None None)
                   (Scenario.listContext true (Some (Items ["a"])))]
                Scenario.enter (or_intror eq_refl)) as [Hlog _].
    exact Hlog.
Defined.

Lemma disclosure_and_focus_are_independent_witness :
  actionsMenuVisible
    (stateOf (after_step Scenario.focusedLinkRow
                (Blur Scenario.page Scenario.blurOut))) =
  actionsMenuVisible (stateOf Scenario.focusedLinkRow)
  /\ focus (stateOf (after_step Scenario.focusedLinkRow ActionsClick)) =
     focus (stateOf Scenario.focusedLinkRow).
Proof.
  split.
  - exact (proj1
             (disclosure_and_focus_are_independent
                (Scenario.row (Some "/a") None None None)
                (Scenario.listContext false None)
                "ResourceListItemCheckbox1" [Attach (Some 0); Focus]
                (Blur Scenario.page Scenario.blurOut))
             eq_refl).
  - exact (proj1
             (proj2
                (disclosure_and_focus_are_independent
                   (Scenario.row (Some "/a") None None None)
                   (Scenario.listContext false None)
                   "ResourceListItemCheckbox1" [Attach (Some 0); Focus]
                   ActionsClick)
                eq_refl)).
Defined.

Lemma focusedInner_is_cleared_only_by_anchor_focus_witness :
  focusedInner
    (focus
       (stateOf
          (after_step
             (after (Scenario.row (Some "/a") None None None)
                (Scenario.listContext false None)
                "ResourceListItemCheckbox1" [Attach (Some 0); MouseDown])
             (Blur Scenario.page Scenario.blurOut)))) = true.
Proof.
  assert (Hs : Blur Scenario.page Scenario.blurOut <> AnchorFocus)
    by discriminate.
  exact (focusedInner_is_cleared_only_by_anchor_focus
           (Scenario.row (Some "/a") None None None)
           (Scenario.listContext false None)
           "ResourceListItemCheckbox1" [Attach (Some 0); MouseDown]
           (Blur Scenario.page Scenario.blurOut) Hs eq_refl).
Defined.

Lemma focused_is_cleared_only_by_leaving_blur_witness :
  exists doc event,
    Blur Scenario.page Scenario.blurOut = Blur doc event
    /\ focusLeftSubtree (node (inst_hooks Scenario.focusedLinkRow)) doc event =
       true.
Proof.
  exact (focused_is_cleared_only_by_leaving_blur
           (Scenario.row (Some "/a") None None None)
           (Scenario.listContext false None)
           "ResourceListItemCheckbox1" [Attach (Some 0); Focus]
           (Blur Scenario.page Scenario.blurOut) eq_refl eq_refl).
Defined.

Lemma inward_steps_make_no_call_witness :
  log_of Scenario.focusedLinkRow (Blur Scenario.page Scenario.blurWithin) = [].
Proof.
  exact (inward_steps_make_no_call
           (Scenario.row (Some "/a") None None None)
           (Scenario.listContext false None)
           "ResourceListItemCheckbox1" [Attach (Some 0); Focus]
           (Blur Scenario.page Scenario.blurWithin) eq_refl).
Defined.

End ItemExtra.

(** * The components that talk to the frame *)

Module FrameExtra.

Import JS Frame JSFacts.

Lemma Dep_is_eq a b : Dep_is a b = true <-> a = b.
Proof.
  destruct a as [v|r], b as [w|q]; simpl; split; try congruence; intro H.
  - apply Object_is_eq in H. now subst.
  - injection H as ->. now apply Object_is_eq.
  - apply Nat.eqb_eq in H. now subst.
  - injection H as ->. apply Nat.eqb_refl.
Qed.

Lemma areDepsEqual_eq next prev : areDepsEqual next prev = true <-> next = prev.
Proof.
  revert prev. induction next as [|a next IH]; intros [|b prev]; simpl;
    split; try congruence; intro H.
  - apply andb_true_iff in H as [Hab Hrest].
    apply Dep_is_eq in Hab. apply IH in Hrest. now subst.
  - injection H as -> ->. apply andb_true_iff. split.
    + now apply Dep_is_eq.
    + now apply IH.
Qed.

(** The dependency list of the first effect. *)
Lemma bar_deps_inj (a b : ContextualSaveBarProps) :
  [plain (of_string (message a)); of_object (saveAction a);
   of_object (discardAction a); of_boolean (alignContentFlush a)] =
  [plain (of_string (message b)); of_object (saveAction b);
   of_object (discardAction b); of_boolean (alignContentFlush b)] ->
  a = b.
Proof.
  destruct a as [m1 s1 d1 f1], b as [m2 s2 d2 f2]. simpl.
  intro H. injection H as Hm Hs Hd Hf.
  apply of_string_inj in Hm.
  assert (s1 = s2) by (destruct s1, s2; simpl in Hs; congruence).
  assert (d1 = d2) by (destruct d1, d2; simpl in Hd; congruence).
  assert (f1 = f2) by (destruct f1, f2; simpl in Hf; congruence).
  congruence.
Qed.

Lemma last_default {A : Type} (l : list A) (x d d' : A) :
  last (x :: l) d = last (x :: l) d'.
Proof.
  revert x. induction l as [|y l IH]; intro x; [reflexivity|].
  change (last (y :: l) d = last (y :: l) d'). apply IH.
Qed.


(** What one render does, by whether the props moved. *)
Lemma render_calls props frame h current :
  bar_deps h =
    [plain (of_string (message current)); of_object (saveAction current);
     of_object (discardAction current); of_boolean (alignContentFlush current)] ->
  exists h',
    bar_deps h' =
      [plain (of_string (message props)); of_object (saveAction props);
       of_object (discardAction props); of_boolean (alignContentFlush props)]
    /\ cleanup_frame h' = cleanup_frame h
    /\ ((props = current /\
         ContextualSaveBar props frame (Some h) = (h', [], Item.null)) \/
        (props <> current /\
         ContextualSaveBar props frame (Some h) =
         (h', [setContextualSaveBar frame props], Item.null))).
Proof.
  intro Hdeps. unfold ContextualSaveBar. cbn [option_map effectRuns].
  rewrite Hdeps.
  exists {| bar_deps :=
              [plain (of_string (message props)); of_object (saveAction props);
               of_object (discardAction props);
               of_boolean (alignContentFlush props)];
            cleanup_frame := cleanup_frame h |}.
  split; [reflexivity|]. split; [reflexivity|].
  destruct (areDepsEqual _ _) eqn:E; cbn [negb].
  - left. apply areDepsEqual_eq in E. apply bar_deps_inj in E. now split.
  - right. split.
    + intros ->. apply Bool.not_true_iff_false in E. apply E.
      now apply areDepsEqual_eq.
    + destruct props. reflexivity.
Qed.

Lemma renders_invariant current frame0 renders : forall h held,
  bar_deps h =
    [plain (of_string (message current)); of_object (saveAction current);
     of_object (discardAction current); of_boolean (alignContentFlush current)] ->
  cleanup_frame h = frame0 ->
  held = Some current ->
  cleanup_frame (fst (saveBar_renders h renders)) = frame0
  /\ bar_deps (fst (saveBar_renders h renders)) =
     (let last := last_props current renders in
      [plain (of_string (message last)); of_object (saveAction last);
       of_object (discardAction last); of_boolean (alignContentFlush last)])
  /\ registered_bar held (snd (saveBar_renders h renders)) =
     Some (last_props current renders)
  /\ forall f, ~ In (removeContextualSaveBar f) (snd (saveBar_renders h renders)).
Proof.
  revert current. induction renders as [|[props frame] rest IH];
    intros current h held Hdeps Hframe Hheld.
  - cbn. repeat split; auto.
  - cbn [saveBar_renders].
    destruct (render_calls props frame h current Hdeps)
      as [h' [Hdeps' [Hframe' Hcase]]].
    assert (Hlast : last_props current ((props, frame) :: rest) =
                    last_props props rest).
    { unfold last_props. destruct rest as [|r rest']; [reflexivity|].
      cbn [last]. f_equal. apply last_default. }
    rewrite Hlast.
    destruct Hcase as [[Heq Hrun] | [Hneq Hrun]]; rewrite Hrun;
      specialize (IH props h');
      destruct (saveBar_renders h' rest) as [h2 log2] eqn:Erest;
      cbn [fst snd app].
    + subst props.
      destruct (IH held Hdeps' (eq_trans Hframe' Hframe) Hheld)
        as [H1 [H2 [H3 H4]]].
      repeat split; assumption.
    + destruct (IH (Some props) Hdeps' (eq_trans Hframe' Hframe) eq_refl)
        as [H1 [H2 [H3 H4]]].
      repeat split; try assumption.
      intros f [Hin | Hin]; [discriminate | exact (H4 f Hin)].
Qed.

Lemma mounted_invariant props frame renders :
  cleanup_frame (fst (saveBar_mounted props frame renders)) = frame
  /\ bar_deps (fst (saveBar_mounted props frame renders)) =
     (let last := last_props props renders in
      [plain (of_string (message last)); of_object (saveAction last);
       of_object (discardAction last); of_boolean (alignContentFlush last)])
  /\ registered_bar None (snd (saveBar_mounted props frame renders)) =
     Some (last_props props renders)
  /\ (exists rest,
        snd (saveBar_mounted props frame renders) =
        setContextualSaveBar frame props :: rest
        /\ forall f, ~ In (removeContextualSaveBar f) rest).
Proof.
  unfold saveBar_mounted. cbn [ContextualSaveBar option_map effectRuns].
  destruct (renders_invariant props frame renders
              {| bar_deps :=
                   [plain (of_string (message props)); of_object (saveAction props);
                    of_object (discardAction props);
                    of_boolean (alignContentFlush props)];
                 cleanup_frame := frame |}
              (Some props) eq_refl eq_refl eq_refl) as [H1 [H2 [H3 H4]]].
  destruct (saveBar_renders _ renders) as [h log].
  cbn [fst snd app] in *.
  repeat split; try assumption.
  - destruct props. exact H3.
  - eexists. split; [destruct props; reflexivity | exact H4].
Qed.

(** X21.  After the mount and any number of renders, the bar the frame
    was last handed is the one of the props of the last render: skipping
    the effect when no dependency moved never leaves the frame behind. *)
Theorem saveBar_follows_the_props props frame renders :
  registered_bar None (snd (saveBar_mounted props frame renders)) =
  Some (last_props props renders).
Proof.
  destruct (mounted_invariant props frame renders) as [_ [_ [Hheld _]]].
  exact Hheld.
Qed.


(** X23.  A later render calls the frame only when one of [message],
    [saveAction], [discardAction] and [alignContentFlush] differs from the
    render before: then it registers the new bar with the frame it sees,
    and otherwise it makes no call, even when the frame is another one. *)
Theorem render_registers_only_changed_props props frame renders props' frame' :
  (props' = last_props props renders ->
   snd (fst (ContextualSaveBar props' frame'
               (Some (fst (saveBar_mounted props frame renders))))) = [])
  /\ (props' <> last_props props renders ->
      snd (fst (ContextualSaveBar props' frame'
                  (Some (fst (saveBar_mounted props frame renders))))) =
      [setContextualSaveBar frame' props']).
Proof.
  destruct (mounted_invariant props frame renders) as [_ [Hdeps _]].
  destruct (render_calls props' frame' _ _ Hdeps)
    as [h' [_ [_ [[Heq Hrun] | [Hneq Hrun]]]]]; rewrite Hrun; split;
    intro H; try reflexivity; contradiction.
Qed.

Lemma render_registers_only_changed_props_witness :
  snd (fst (ContextualSaveBar
              {| message := Some "Unsaved changes"; saveAction := Some 1;
                 discardAction := Some 2; alignContentFlush := None |} 8
              (Some (fst (saveBar_mounted
                            {| message := Some "Unsaved changes";
                               saveAction := Some 1; discardAction := Some 2;
                               alignContentFlush := None |} 7 []))))) = []
  /\ snd (fst (ContextualSaveBar
                 {| message := Some "Unsaved changes"; saveAction := Some 3;
                    discardAction := Some 2; alignContentFlush := None |} 8
                 (Some (fst (saveBar_mounted
                               {| message := Some "Unsaved changes";
                                  saveAction := Some 1; discardAction := Some 2;
                                  alignContentFlush := None |} 7 []))))) =
     [setContextualSaveBar 8
        {| message := Some "Unsaved changes"; saveAction := Some 3;
           discardAction := Some 2; alignContentFlush := None |}].
Proof.
  assert (Hneq : {| message := Some "Unsaved changes"; saveAction := Some 3;
                    discardAction := Some 2; alignContentFlush := None |} <>
                 last_props
                   {| message := Some "Unsaved changes"; saveAction := Some 1;
                      discardAction := Some 2; alignContentFlush := None |} [])
    by discriminate.
  split.
  - destruct (render_registers_only_changed_props
                {| message := Some "Unsaved changes"; saveAction := Some 1;
                   discardAction := Some 2; alignContentFlush := None |} 7 []
                {| message := Some "Unsaved changes"; saveAction := Some 1;
                   discardAction := Some 2; alignContentFlush := None |} 8)
      as [H _].
    exact (H eq_refl).
  - destruct (render_registers_only_changed_props
                {| message := Some "Unsaved changes"; saveAction := Some 1;
                   discardAction := Some 2; alignContentFlush := None |} 7 []
                {| message := Some "Unsaved changes"; saveAction := Some 3;
                   discardAction := Some 2; alignContentFlush := None |} 8)
      as [_ H].
    exact (H Hneq).
Defined.

Lemma loading_renders_are_silent h renders : loading_renders h renders = (h, []).
Proof.
  induction renders as [|[appBridge frame] rest IH]; [reflexivity|].
  cbn [loading_renders Loading]. rewrite IH. reflexivity.
Qed.

(** X24.  Over its whole life the loading component tells one party to
    start, once, at the mount, and the same party to stop, once, when it
    goes away: the frame when there was no app bridge at the mount, the
    loading object it made from the app bridge otherwise.  Renders in
    between make no call, whatever app bridge and frame they see. *)
Theorem loading_starts_and_stops_once appBridge frame renders :
  loading_lifetime appBridge frame renders =
  match appBridge with
  | None => [startLoading frame; stopLoading frame]
  | Some app =>
      [AppBridgeLoading_create app; dispatch app START; dispatch app STOP]
  end.
Proof.
  unfold loading_lifetime. cbn [Loading].
  destruct appBridge as [app|]; cbn [Loading_effect];
    rewrite loading_renders_are_silent; reflexivity.
Qed.

End FrameExtra.

(** * DOM events on the row *)

Module ItemEvents.

Import JS React Item ItemView Bubbling JSFacts ReactFacts ItemFacts ItemExtra.
Local Open Scope list_scope.

(** ** Which listeners an event reaches *)

Lemma existsb_false_nth_error {A : Type} (f : A -> bool) (l : list A) k x :
  existsb f l = false -> nth_error l k = Some x -> f x = false.
Proof.
  revert k. induction l as [|y l IH]; intros [|k] Hex Hnth; simpl in *;
    try discriminate; apply orb_false_iff in Hex as [Hy Hl].
  - now injection Hnth as <-.
  - now apply (IH k).
Qed.

(** Below an element without listeners an event meets none. *)
Lemma no_listener_below prop path : forall v,
  hasListener prop v = false ->
  flat_map (ownListener prop) (elementsTo v path) = [].
Proof.
  induction path as [|k rest IH]; intros v Hv.
  - destruct v as [| | |type attrs children]; try reflexivity.
    cbn in Hv |- *. unfold ownListener, attr.
    destruct (lookup prop attrs); [discriminate | reflexivity].
  - destruct v as [| | |type attrs children]; try (destruct k; reflexivity).
    cbn in Hv. cbn [elementsTo kids flat_map].
    unfold ownListener at 1, attr.
    destruct (lookup prop attrs); [discriminate|]. cbn in Hv |- *.
    destruct (nth_error children k) as [child|] eqn:Hk; [|reflexivity].
    apply IH. now apply (existsb_false_nth_error _ children k).
Qed.

Ltac render_cases :=
  repeat match goal with
         | |- context [if ?b then _ else _] => destruct b
         | |- context [match ?x with Some _ => _ | None => _ end] => destruct x
         end.

(** Nothing in the container listens to a blur. *)
Lemma container_has_no_blur_listener p c u prev :
  hasListener "onBlur" (containerMarkupOf (inst_output (render p c u prev))) =
  false.
Proof.
  unfold render, Item, containerMarkupOf, actionsMarkup, disclosureMarkup.
  cbn -[useCallback isSelected truthy of_string].
  render_cases; reflexivity.
Qed.


(** A blur meets the wrapper's [handleBlur], and before it
    [handleFocusedBlur] when the target is the link or button of the
    row. *)
Lemma blur_listeners_of_render p c u prev path :
  listenersAlong "onBlur" (inst_output (render p c u prev)) path =
  (if onAccessibleElement path then [on_handleFocusedBlur] else []) ++
  [on_handleBlur (callback (handleBlur_cell (inst_hooks (render p c u prev))))].
Proof.
  unfold listenersAlong.
  destruct path as [|[|[|k]] rest]; cbn [onAccessibleElement].
  - reflexivity.
  - unfold render, Item. cbn -[useCallback isSelected truthy of_string].
    destruct (truthy (of_string (url p))); destruct rest as [|[|k] rest];
      reflexivity.
  - pose proof (no_listener_below "onBlur" rest _
                  (container_has_no_blur_listener p c u prev)) as Hnone.
    change (flat_map (ownListener "onBlur")
              (elementsTo (inst_output (render p c u prev)) (1 :: rest)))
      with (ownListener "onBlur" (inst_output (render p c u prev)) ++
            flat_map (ownListener "onBlur")
              (elementsTo (containerMarkupOf (inst_output (render p c u prev)))
                 rest)).
    rewrite Hnone, app_nil_r. reflexivity.
  - destruct k; reflexivity.
Qed.

Lemma blur_listeners p c u history path :
  listenersAlong "onBlur" (inst_output (after p c u history)) path =
  (if onAccessibleElement path then [on_handleFocusedBlur] else []) ++
  [on_handleBlur (callback (handleBlur_cell (inst_hooks (after p c u history))))].
Proof.
  apply (every_row_is_a_render
           (fun i =>
              listenersAlong "onBlur" (inst_output i) path =
              (if onAccessibleElement path then [on_handleFocusedBlur] else []) ++
              [on_handleBlur (callback (handleBlur_cell (inst_hooks i)))])).
  intros. apply blur_listeners_of_render.
Qed.



(** The state after an event and its log, by the listeners that ran. *)
Lemma event_run i doc path e :
  stateOf (after_event i doc path e) =
    fst (run (bubble (listenersAlong (listenerProp e) (inst_output i) path)
                (node (inst_hooks i)) doc e) (stateOf i))
  /\ log_of_event i doc path e =
     snd (run (bubble (listenersAlong (listenerProp e) (inst_output i) path)
                 (node (inst_hooks i)) doc e) (stateOf i)).
Proof.
  unfold after_event, log_of_event, dispatchEvent.
  split; [apply dispatch_state | apply dispatch_log].
Qed.

Lemma bubble_blur_alone cl n doc event s :
  run (bubble [on_handleBlur cl] n doc (dom_blur event)) s =
  run (handleBlur cl n doc event) s.
Proof.
  unfold bubble, runListener, run, handleBlur. handler_cases; reflexivity.
Qed.

Lemma bubble_blur_of_accessible cl n doc event s :
  run (bubble [on_handleFocusedBlur; on_handleBlur cl] n doc (dom_blur event)) s =
  run (handleBlur cl n doc event)
    {| actionsMenuVisible := actionsMenuVisible s;
       focus := {| focused := true; focusedInner := true |} |}.
Proof.
  unfold bubble, runListener, run, handleBlur. handler_cases; reflexivity.
Qed.



(** ** Focus *)

Section BlurEvent.

Variables (p : Props) (c : ResourceListContextType) (u : string)
  (history : list Step).
Variables (doc : Document) (path : list nat) (event : FocusEvent).

Local Abbreviation row := (after p c u history).
Local Abbreviation blurred :=
  (after_event (after p c u history) doc path (dom_blur event)).

(** C4, amended.  A blur whose target is not the link or button of the
    row runs the wrapper's [handleBlur] alone: when focus leaves the
    subtree ([node.current] is null or does not contain [relatedTarget])
    it clears [focused] and keeps [focusedInner]; when focus stays in the
    subtree, the row is of the kind it was mounted as, and the target is
    an anchor element (row without [onClick]) or the root node (row with
    [onClick]), it sets [focusedInner] and keeps [focused].  A blur of the
    link or button of the row runs [handleFocusedBlur] first:
    [focusedInner] ends true, and [focused] ends false when focus leaves
    the subtree and true otherwise. *)
Theorem blur_event_updates_focus :
  (onAccessibleElement path = false ->
   (focusLeftSubtree (node (inst_hooks row)) doc event = true ->
    focus (stateOf blurred) =
    {| focused := false;
       focusedInner := focusedInner (focus (stateOf row)) |})
   /\ (focusLeftSubtree (node (inst_hooks row)) doc event = false ->
       isCallbackRow (inst_props row) = isCallbackRow p ->
       (if isCallbackRow (inst_props row)
        then node (inst_hooks row) = Some (blurTarget event)
        else toLowerCase (tagName doc (blurTarget event)) = "a") ->
       focus (stateOf blurred) =
       {| focused := focused (focus (stateOf row)); focusedInner := true |}))
  /\ (onAccessibleElement path = true ->
      focus (stateOf blurred) =
      {| focused := negb (focusLeftSubtree (node (inst_hooks row)) doc event);
         focusedInner := true |}).
Proof.
  pose proof (after_blur_cell p c u history) as Hcell. unfold BlurCell in Hcell.
  pose proof (blur_listeners p c u history path) as Hlisteners.
  remember (after p c u history) as i eqn:Ei.
  destruct (event_run i doc path (dom_blur event)) as [Hstate _].
  rewrite Hstate. cbn [listenerProp]. rewrite Hlisteners, Hcell.
  cbn [callback]. split; intro Hpath; rewrite Hpath; cbn [app].
  - rewrite bubble_blur_alone. unfold handleBlur. cbn [blur_onClick]. split.
    + intros Hout. rewrite Hout. reflexivity.
    + intros Hin Hkind Htarget. rewrite Hin.
      unfold compareEventNode. fold (isCallbackRow p). rewrite <- Hkind.
      destruct (isCallbackRow (inst_props i)).
      * rewrite Htarget, Nat.eqb_refl. reflexivity.
      * rewrite Htarget. reflexivity.
  - rewrite bubble_blur_of_accessible. unfold handleBlur.
    destruct (focusLeftSubtree (node (inst_hooks i)) doc event);
      [reflexivity|].
    destruct (compareEventNode _ _ _ _); reflexivity.
Qed.

(** X14.  A blur whose target is not the link or button of the row, that
    keeps focus inside the row, and whose target is not the one
    [compareEventNode] looks for, leaves the row as it was.
    [compareEventNode] decides with the [onClick] of the mount. *)
Theorem blur_within_row_elsewhere_changes_nothing :
  onAccessibleElement path = false ->
  focusLeftSubtree (node (inst_hooks row)) doc event = false ->
  compareEventNode (match onClick p with Some f => f | None => noop end)
    (node (inst_hooks row)) doc event = false ->
  blurred = row.
Proof.
  intros Hpath Hin Hcmp.
  pose proof (after_blur_cell p c u history) as Hcell. unfold BlurCell in Hcell.
  pose proof (after_settled p c u history) as Hset.
  pose proof (blur_listeners p c u history path) as Hlisteners.
  remember (after p c u history) as i eqn:Ei.
  unfold after_event, dispatchEvent. apply dispatch_unchanged; [exact Hset|].
  cbn [listenerProp]. rewrite Hlisteners, Hpath, Hcell. cbn [app callback].
  rewrite bubble_blur_alone. unfold handleBlur. cbn [blur_onClick].
  rewrite Hin, Hcmp. cbn. now destruct (stateOf i).
Qed.

End BlurEvent.

(** C4 as stated fails: the link of a focused link row loses focus to an
    element outside the row.  The link's own [handleFocusedBlur] runs
    before the wrapper's [handleBlur], so the row ends with [focused]
    cleared and [focusedInner] set: [focusedInner] is not left unchanged,
    as the first half of the claim has it, and [focused] is not, as the
    second half has it. *)
Lemma blur_of_link_leaving_row_sets_focusedInner :
  isCallbackRow (inst_props Scenario.focusedLinkRow) = false
  /\ embeddedAnchor (node (inst_hooks Scenario.focusedLinkRow)) Scenario.page =
     Some (blurTarget Scenario.blurOut)
  /\ focusLeftSubtree (node (inst_hooks Scenario.focusedLinkRow)) Scenario.page
       Scenario.blurOut = true
  /\ focus (stateOf Scenario.focusedLinkRow) =
     {| focused := true; focusedInner := false |}
  /\ focus (stateOf (after_event Scenario.focusedLinkRow Scenario.page [0]
                       (dom_blur Scenario.blurOut))) =
     {| focused := false; focusedInner := true |}
  /\ focus (stateOf (after_event Scenario.focusedLinkRow Scenario.page [0]
                       (dom_blur Scenario.blurOut))) <>
     {| focused := false;
        focusedInner := focusedInner (focus (stateOf Scenario.focusedLinkRow)) |}
  /\ focus (stateOf (after_event Scenario.focusedLinkRow Scenario.page [0]
                       (dom_blur Scenario.blurOut))) <>
     {| focused := focused (focus (stateOf Scenario.focusedLinkRow));
        focusedInner := true |}.
Proof. repeat split; discriminate. Qed.

Lemma blur_event_updates_focus_witness :
  focus (stateOf (after_event Scenario.focusedLinkRow Scenario.page [1]
                    (dom_blur {| blurTarget := 2; relatedTarget := Some 9 |}))) =
    {| focused := false; focusedInner := false |}
  /\ focus (stateOf (after_event Scenario.focusedLinkRow
                       Scenario.pageWithContentLink [1; 1; 0]
                       (dom_blur {| blurTarget := 2; relatedTarget := Some 1 |}))) =
     {| focused := true; focusedInner := true |}
  /\ focus (stateOf (after_event Scenario.focusedLinkRow Scenario.page [0]
                       (dom_blur Scenario.blurOut))) =
     {| focused := false; focusedInner := true |}.
Proof.
  split; [|split].
  - destruct (blur_event_updates_focus
                (Scenario.row (Some "/a") None None None)
                (Scenario.listContext false None)
                "ResourceListItemCheckbox1" [Attach (Some 0); Focus]
                Scenario.page [1] {| blurTarget := 2; relatedTarget := Some 9 |})
      as [H _].
    destruct (H eq_refl) as [Hout _]. exact (Hout eq_refl).
  - destruct (blur_event_updates_focus
                (Scenario.row (Some "/a") None None None)
                (Scenario.listContext false None)
                "ResourceListItemCheckbox1" [Attach (Some 0); Focus]
                Scenario.pageWithContentLink [1; 1; 0]
                {| blurTarget := 2; relatedTarget := Some 1 |})
      as [H _].
    destruct (H eq_refl) as [_ Hin]. exact (Hin eq_refl eq_refl eq_refl).
  - destruct (blur_event_updates_focus
                (Scenario.row (Some "/a") None None None)
                (Scenario.listContext false None)
                "ResourceListItemCheckbox1" [Attach (Some 0); Focus]
                Scenario.page [0] Scenario.blurOut)
      as [_ H].
    exact (H eq_refl).
Defined.

Lemma blur_within_row_elsewhere_changes_nothing_witness :
  after_event Scenario.focusedLinkRow Scenario.page [1]
    (dom_blur {| blurTarget := 2; relatedTarget := Some 1 |}) =
  Scenario.focusedLinkRow.
Proof.
  exact (blur_within_row_elsewhere_changes_nothing
           (Scenario.row (Some "/a") None None None)
           (Scenario.listContext false None)
           "ResourceListItemCheckbox1" [Attach (Some 0); Focus]
           Scenario.page [1] {| blurTarget := 2; relatedTarget := Some 1 |}
           eq_refl eq_refl eq_refl).
Defined.

(** ** Activation *)

Lemma dispatch_run_ext i h1 h2 :
  run h1 (stateOf i) = run h2 (stateOf i) -> dispatch i h1 = dispatch i h2.
Proof.
  unfold dispatch, stateOf. intro H. rewrite H. reflexivity.
Qed.

Section ClickEvent.

Variables (p : Props) (c : ResourceListContextType) (u : string)
  (history : list Step).
Variables (doc : Document) (path : list nat) (event : MouseEvent).

Local Abbreviation row := (after p c u history).
Local Abbreviation clicked :=
  (after_event (after p c u history) doc path (dom_click event)).
Local Abbreviation log :=
  (log_of_event (after p c u history) doc path (dom_click event)).


End ClickEvent.


(** ** Events and histories *)

(** Two handler runs in a row leave the row where one run of both
    leaves it: the render in between changes no stored handler. *)
Lemma dispatch_twice i h1 h2 :
  fst (dispatch (fst (dispatch i h1)) h2) =
  fst (dispatch i (bind h1 (fun _ => h2))).
Proof.
  destruct i as [pi ci [st n cid cb cl cs cc ck] oi].
  unfold dispatch, run, bind. cbn [inst_hooks state].
  destruct (h1 st) as [[a s1] log1]. cbn [fst].
  unfold update, render, Item.
  cbn -[useCallback isSelected classNames actionsMarkup disclosureMarkup].
  destruct (h2 s1) as [[b s2] log2]. cbn [fst].
  cbn -[useCallback isSelected classNames actionsMarkup disclosureMarkup].
  rewrite !useCallback_again. reflexivity.
Qed.

(** A blur of the link or button of the row leaves the row where the
    history that runs [handleFocusedBlur] and then [handleBlur] leaves
    it, so the rows that events lead to are among those that histories
    lead to. *)
Lemma blur_of_accessible_is_two_steps p c u history doc path event :
  onAccessibleElement path = true ->
  after_event (after p c u history) doc path (dom_blur event) =
  after p c u (history ++ [FocusedBlur; Blur doc event]).
Proof.
  intro Hpath.
  pose proof (blur_listeners p c u history path) as Hlisteners.
  rewrite Hpath in Hlisteners. cbn [app] in Hlisteners.
  pose proof (after_blur_cell p c u history) as Hcell.
  pose proof (step_blur_cell _ _ FocusedBlur Hcell) as Hcell'.
  unfold BlurCell in Hcell, Hcell'.
  assert (Hsteps : forall i rest,
             fst (steps i (rest ++ [FocusedBlur; Blur doc event])) =
             after_step (after_step (fst (steps i rest)) FocusedBlur)
               (Blur doc event)).
  { intros i rest. revert i. induction rest as [|s rest IH]; intro i.
    - unfold after_step. cbn [app steps fst].
      destruct (step i FocusedBlur) as [i1 log1]. cbn [fst].
      destruct (step i1 (Blur doc event)) as [i2 log2]. reflexivity.
    - cbn [app steps]. destruct (step i s) as [i1 log1].
      specialize (IH i1).
      destruct (steps i1 (rest ++ [FocusedBlur; Blur doc event])) as [i2 log2].
      destruct (steps i1 rest) as [i3 log3]. exact IH. }
  unfold after at 2. rewrite Hsteps. fold (after p c u history).
  remember (after p c u history) as i eqn:Ei.
  unfold after_event, dispatchEvent, after_step, step in *.
  rewrite dispatch_twice. f_equal. apply dispatch_run_ext.
  cbn [listenerProp]. rewrite Hlisteners.
  unfold Item.blur. rewrite Hcell', <- Hcell.
  assert (Hnode : node (inst_hooks (fst (dispatch i handleFocusedBlur))) =
                  node (inst_hooks i)).
  { unfold dispatch. destruct (run handleFocusedBlur (state (inst_hooks i))).
    reflexivity. }
  rewrite Hnode.
  unfold run, bind, bubble, runListener, handleBlur, handleFocusedBlur,
    setFocusState.
  cbn. handler_cases; reflexivity.
Qed.

End ItemEvents.
